(** * QLORAX API: model lifecycle manager and training status coordinator

    A shallow embedding of [app/api.py]: the [ModelManager] class
    ([load_model], [generate_response]), the lazily created process-wide
    manager ([get_model_manager]), and the endpoints [/chat], [/load_model],
    [/model_status], [/train] and [/train/status] together with the
    background job [run_training].

    The machine-learning stack (transformers, peft, torch), the file system
    and the external training entry point are not part of the repository.
    They appear here as a record of oracles, [World]; every function of the
    embedding takes the world of the call as an argument, and every theorem
    quantifies over it. *)

From Stdlib Require Import String Ascii List Bool ZArith NArith Lia.
Import ListNotations.
Open Scope string_scope.
Open Scope list_scope.

(** ** Python values *)

(** User text ([ChatRequest.message], decoded generations) is a Python [str]:
    a sequence of Unicode code points, so that [len] and slicing count code
    points.  Paths, identifiers and the literals of the program are kept as
    [string]; they are only compared, tested for a prefix and passed on. *)
Definition pystr := list N.

Definition pystr_of_string (s : string) : pystr :=
  map N_of_ascii (list_ascii_of_string s).

(** Exceptions.  [HTTPException] is FastAPI's; it derives from [Exception]
    like every other error the code can meet, which [PyError] stands for
    (class name and message). *)
Inductive Exn : Type :=
| HTTPException (status_code : Z) (detail : string)
| PyError (cls : string) (msg : string).

(** A computation over a mutable object of type [S]: it returns or raises,
    and in both cases the mutations made so far stay. *)
Definition Py (S A : Type) : Type := S -> (Exn + A) * S.

Definition ret {S A} (a : A) : Py S A := fun s => (inr a, s).

Definition raise {S A} (e : Exn) : Py S A := fun s => (inl e, s).

Definition bind {S A B} (c : Py S A) (k : A -> Py S B) : Py S B :=
  fun s =>
    match c s with
    | (inr a, s') => k a s'
    | (inl e, s') => (inl e, s')
    end.

(** [try: c  except Exception as e: h e] *)
Definition try_except {S A} (c : Py S A) (h : Exn -> Py S A) : Py S A :=
  fun s =>
    match c s with
    | (inr a, s') => (inr a, s')
    | (inl e, s') => h e s'
    end.

Definition get {S} : Py S S := fun s => (inr s, s).

Definition modify {S} (f : S -> S) : Py S unit := fun s => (inr tt, f s).

(** The result of a call into a library: a value or an exception. *)
Definition call {S A} (r : Exn + A) : Py S A := fun s => (r, s).

(** An [import] statement: [Some e] when it raises [e]. *)
Definition import_ {S} (r : option Exn) : Py S unit :=
  fun s => match r with Some e => (inl e, s) | None => (inr tt, s) end.

Declare Scope py_scope.
Delimit Scope py_scope with py.
Notation "x <- c ;; k" := (bind c (fun x => k))
  (at level 61, c at next level, right associativity) : py_scope.
Notation "c ;; k" := (bind c (fun _ => k))
  (at level 61, right associativity) : py_scope.
Open Scope py_scope.

(** ** The external world *)

(** A loaded model is recorded by the library calls that built it. *)
Inductive Model : Type :=
| AutoModelForCausalLM (name : string)
    (* AutoModelForCausalLM.from_pretrained(name, torch_dtype=float32, device_map="cpu") *)
| PeftModel (base : Model) (adapter : string).
    (* PeftModel.from_pretrained(base, adapter) *)

(** The attributes of a tokenizer that the code reads or writes. *)
Record Tokenizer : Type := mkTokenizer {
  name_or_path : string;
  pad_token : option pystr;
  eos_token : option pystr;
  eos_token_id : option Z
}.

Definition with_pad_token (tok : Tokenizer) (p : option pystr) : Tokenizer :=
  mkTokenizer (name_or_path tok) p (eos_token tok) (eos_token_id tok).

(** Sampling parameters are floating-point numbers that the code only
    forwards to [model.generate]; they are carried as rationals. *)
Record Sampling : Type := mkSampling {
  temperature : option (Z * Z);
  top_p : option (Z * Z)
}.

Record World : Type := mkWorld {
  (* os.path.exists, os.listdir *)
  path_exists : string -> bool;
  listdir : string -> Exn + list string;
  (* import torch; from transformers import ...; from peft import PeftModel *)
  import_ml_stack : option Exn;
  (* AutoTokenizer.from_pretrained(model_path); the argument may be None *)
  AutoTokenizer_from_pretrained : option string -> Exn + Tokenizer;
  (* the exception, if any, of AutoModelForCausalLM.from_pretrained(name) *)
  causal_lm_fails : string -> option Exn;
  (* the exception, if any, of PeftModel.from_pretrained(base, adapter) *)
  peft_fails : Model -> string -> option Exn;
  (* type(model).__name__ *)
  class_name : Model -> string;
  (* import torch, inside generate_response *)
  import_torch : option Exn;
  (* tokenizer.encode(text, return_tensors="pt"): one row of token ids *)
  encode : Tokenizer -> pystr -> Exn + list Z;
  (* model.generate(inputs, max_length=.., temperature=.., top_p=..,
     do_sample=True, pad_token_id=..): a batch of rows; sampling is random,
     the world fixes the draw *)
  generate : Model -> list Z -> Z -> Sampling -> option Z -> Exn + list (list Z);
  (* tokenizer.decode(row, skip_special_tokens=True) *)
  decode : Tokenizer -> list Z -> Exn + pystr;
  (* from scripts.train_production import main as train_main *)
  import_train_production : option Exn;
  (* train_main(config_path) *)
  train_main : string -> Exn + unit;
  (* str(e) *)
  str_exn : Exn -> string
}.

(** ** class ModelManager *)

Record ModelManager : Type := mkModelManager {
  model : option Model;
  tokenizer : option Tokenizer;
  model_name : option string;
  is_loaded : bool
}.

(** [ModelManager.__init__] *)
Definition ModelManager_init : ModelManager :=
  mkModelManager None None None false.

Definition set_model (m : option Model) : Py ModelManager unit :=
  modify (fun self => mkModelManager m (tokenizer self) (model_name self) (is_loaded self)).

Definition set_tokenizer (t : option Tokenizer) : Py ModelManager unit :=
  modify (fun self => mkModelManager (model self) t (model_name self) (is_loaded self)).

Definition set_model_name (n : option string) : Py ModelManager unit :=
  modify (fun self => mkModelManager (model self) (tokenizer self) n (is_loaded self)).

Definition set_is_loaded (b : bool) : Py ModelManager unit :=
  modify (fun self => mkModelManager (model self) (tokenizer self) (model_name self) b).

Definition base_model_name : string := "microsoft/DialoGPT-medium".

Definition adapter_marker : string := "adapter_config.json".

Definition possible_paths : list string :=
  [ "outputs/production_training/final_model";
    "models/fine_tuned_model";
    "microsoft/DialoGPT-medium" ].

(** The "Determine model path" block of [load_model]: with no path given,
    the first candidate that exists or starts with ["microsoft/"]; the
    variable stays [None] when the loop finds none. *)
Definition determine_model_path (w : World) (model_path : option string)
  : option string :=
  match model_path with
  | Some p => Some p
  | None =>
      find (fun path => path_exists w path || String.prefix "microsoft/" path)
           possible_paths
  end.

Definition string_in (x : string) (l : list string) : bool :=
  existsb (String.eqb x) l.

(** The "Load model" block: the condition
    [os.path.exists(model_path) and "adapter_config.json" in os.listdir(model_path)]
    and its two branches.  [os.path.exists(None)] raises [TypeError]. *)
Definition load_weights (w : World) (model_path : option string)
  : Py ModelManager Model :=
  match model_path with
  | None =>
      raise (PyError "TypeError" "stat: path should be string, bytes, os.PathLike or integer, not NoneType")
  | Some p =>
      is_adapter <-
        (if path_exists w p
         then (files <- call (listdir w p) ;; ret (string_in adapter_marker files))
         else ret false) ;;
      if is_adapter
      then
        import_ (causal_lm_fails w base_model_name) ;;
        let base_model := AutoModelForCausalLM base_model_name in
        import_ (peft_fails w base_model p) ;;
        ret (PeftModel base_model p)
      else
        import_ (causal_lm_fails w p) ;;
        ret (AutoModelForCausalLM p)
  end.

(** The body of the [try] of [load_model]. *)
Definition load_model_body (w : World) (model_path : option string)
  : Py ModelManager unit :=
  import_ (import_ml_stack w) ;;
  let model_path := determine_model_path w model_path in
  tok <- call (AutoTokenizer_from_pretrained w model_path) ;;
  set_tokenizer (Some tok) ;;
  (match pad_token tok with
   | None => set_tokenizer (Some (with_pad_token tok (eos_token tok)))
   | Some _ => ret tt
   end) ;;
  m <- load_weights w model_path ;;
  set_model (Some m) ;;
  set_model_name model_path ;;
  set_is_loaded true.

(** [ModelManager.load_model] *)
Definition load_model (w : World) (model_path : option string)
  : Py ModelManager unit :=
  try_except (load_model_body w model_path)
             (fun e => set_is_loaded false ;; raise e).

(** ** Text operations *)

(** [str.isspace] on one code point: the Unicode white-space characters that
    [str.strip()] removes. *)
Definition py_isspace (c : N) : bool :=
  (((0x09 <=? c) && (c <=? 0x0D)) || ((0x1C <=? c) && (c <=? 0x20))
   || (c =? 0x85) || (c =? 0xA0) || (c =? 0x1680)
   || ((0x2000 <=? c) && (c <=? 0x200A))
   || (c =? 0x2028) || (c =? 0x2029) || (c =? 0x202F) || (c =? 0x205F)
   || (c =? 0x3000))%N.

Fixpoint lstrip (s : pystr) : pystr :=
  match s with
  | [] => []
  | c :: s' => if py_isspace c then lstrip s' else s
  end.

Definition rstrip (s : pystr) : pystr := rev (lstrip (rev s)).

(** [s.strip()] *)
Definition strip (s : pystr) : pystr := rstrip (lstrip s).

(** [s[n:]] *)
Definition slice_from (n : nat) (s : pystr) : pystr := skipn n s.

(** [x or default] on an optional string: [None] and [""] are falsy. *)
Definition or_default (x : option string) (default : string) : string :=
  match x with
  | Some s => if String.eqb s "" then default else s
  | None => default
  end.

(** ** ModelManager.generate_response *)

Definition attribute_error (attr : string) : Exn :=
  PyError "AttributeError" ("'NoneType' object has no attribute '" ++ attr ++ "'")%string.

Definition type_error (msg : string) : Exn := PyError "TypeError" msg.

Definition from_option {S A} (o : option A) (e : Exn) : Py S A :=
  match o with Some a => ret a | None => raise e end.

(** The body of the [try] of [generate_response]. *)
Definition generate_response_body (w : World) (message : pystr)
    (max_length : option Z) (sampling : Sampling) : Py ModelManager pystr :=
  self <- get ;;
  import_ (import_torch w) ;;
  (* inputs = self.tokenizer.encode(message + self.tokenizer.eos_token, ...) *)
  tok <- from_option (tokenizer self) (attribute_error "encode") ;;
  eos <- from_option (eos_token tok)
           (type_error "can only concatenate str (not NoneType) to str") ;;
  inputs <- call (encode w tok (message ++ eos)) ;;
  (* outputs = self.model.generate(inputs, max_length=inputs.shape[1] + max_length, ...) *)
  m <- from_option (model self) (attribute_error "generate") ;;
  extra <- from_option max_length
             (type_error "unsupported operand type(s) for +: 'int' and 'NoneType'") ;;
  outputs <- call (generate w m inputs (Z.of_nat (length inputs) + extra)
                     sampling (eos_token_id tok)) ;;
  (* response = self.tokenizer.decode(outputs[0], skip_special_tokens=True) *)
  row <- from_option (nth_error outputs 0)
           (PyError "IndexError" "index 0 is out of bounds for dimension 0 with size 0") ;;
  response <- call (decode w tok row) ;;
  (* response = response[len(message):].strip() *)
  ret (strip (slice_from (length message) response)).

Definition generate_response (w : World) (message : pystr)
    (max_length : option Z) (sampling : Sampling) : Py ModelManager pystr :=
  self <- get ;;
  if negb (is_loaded self)
  then raise (HTTPException 503 "Model not loaded")
  else
    try_except (generate_response_body w message max_length sampling)
      (fun e => raise (HTTPException 500 ("Generation error: " ++ str_exn w e)%string)).

(** ** Process state *)

Record TrainingRequest : Type := mkTrainingRequest {
  config_path : option string;
  dataset_path : option string;
  output_dir : option string
}.

(** The module-level dict [training_status]; it is always rebound to a new
    two-key dict, never updated in place. *)
Record StatusRecord : Type := mkStatus {
  status : string;
  message : string
}.

(** Module globals, and the background jobs of the server: [queued] holds
    the [run_training] closures added by [add_task] that have not begun,
    [running] those that have begun and are inside [train_main].  A closure
    is known by the request it captures. *)
Record App : Type := mkApp {
  model_manager : option ModelManager;
  training_status : StatusRecord;
  queued : list TrainingRequest;
  running : list TrainingRequest
}.

(** The state at import time. *)
Definition App_init : App :=
  mkApp None (mkStatus "idle" "No training in progress") [] [].

Definition set_model_manager (m : option ModelManager) : Py App unit :=
  modify (fun app => mkApp m (training_status app) (queued app) (running app)).

Definition set_training_status (st : StatusRecord) : Py App unit :=
  modify (fun app => mkApp (model_manager app) st (queued app) (running app)).

Definition add_task (r : TrainingRequest) : Py App unit :=
  modify (fun app =>
            mkApp (model_manager app) (training_status app) (queued app ++ [r]) (running app)).

(** A method call on the global manager object: its mutations are those of
    the global. *)
Definition on_manager {A} (c : Py ModelManager A) : Py App A :=
  fun app =>
    match model_manager app with
    | Some self =>
        let (r, self') := c self in
        (r, mkApp (Some self') (training_status app) (queued app) (running app))
    | None => (inl (attribute_error "manager"), app)
    end.

(** [get_model_manager], the dependency of the model endpoints: on first use
    it creates the manager and attempts the default load, whose failure is
    logged and dropped. *)
Definition get_model_manager (w : World) : Py App unit :=
  app <- get ;;
  match model_manager app with
  | None =>
      set_model_manager (Some ModelManager_init) ;;
      try_except (on_manager (load_model w None)) (fun _ => ret tt)
  | Some _ => ret tt
  end.

(** ** Endpoints *)

Record ChatRequest : Type := mkChatRequest {
  chat_message : pystr;
  chat_max_length : option Z;
  chat_sampling : Sampling
}.

(** [ChatResponse]; [processing_time], a difference of two clock readings,
    is left out. *)
Record ChatResponse : Type := mkChatResponse {
  response : pystr;
  response_model_name : string
}.

(** The handler of [POST /chat], given the manager. *)
Definition chat_handler (w : World) (request : ChatRequest)
  : Py ModelManager ChatResponse :=
  try_except
    (response <- generate_response w (chat_message request)
                   (chat_max_length request) (chat_sampling request) ;;
     manager <- get ;;
     ret (mkChatResponse response (or_default (model_name manager) "unknown")))
    (fun e => raise (HTTPException 500 (str_exn w e))).

(** [POST /chat] *)
Definition chat (w : World) (request : ChatRequest) : Py App ChatResponse :=
  get_model_manager w ;;
  on_manager (chat_handler w request).

Record Message : Type := mkMessage {
  msg_status : string;
  msg_text : string
}.

Definition describe (n : option string) : string :=
  match n with Some s => s | None => "None" end.

(** [POST /load_model] *)
Definition load_model_endpoint (w : World) (model_path : option string)
  : Py App Message :=
  get_model_manager w ;;
  on_manager
    (try_except
       (load_model w model_path ;;
        manager <- get ;;
        ret (mkMessage "success" ("Model loaded from " ++ describe (model_name manager))%string))
       (fun e => raise (HTTPException 500 (str_exn w e)))).

Record ModelStatus : Type := mkModelStatus {
  ms_is_loaded : bool;
  ms_model_name : option string;
  ms_model_type : option string
}.

(** The handler of [GET /model_status], given the manager. *)
Definition model_status_handler (w : World) (manager : ModelManager) : ModelStatus :=
  mkModelStatus (is_loaded manager) (model_name manager)
                (option_map (class_name w) (model manager)).

(** [GET /model_status] *)
Definition model_status (w : World) : Py App ModelStatus :=
  get_model_manager w ;;
  on_manager (manager <- get ;; ret (model_status_handler w manager)).

Definition default_config_path : string := "configs/production-config.yaml".

(** The first statement of the [try] of [run_training]. *)
Definition run_training_begin : Py App unit :=
  set_training_status (mkStatus "training" "Training started").

(** The rest of [run_training]: import and run the training entry point,
    then record the outcome. *)
Definition run_training_rest (w : World) (request : TrainingRequest) : Py App unit :=
  try_except
    (import_ (import_train_production w) ;;
     let config_path := or_default (config_path request) default_config_path in
     call (train_main w config_path) ;;
     set_training_status (mkStatus "completed" "Training completed successfully"))
    (fun e =>
       set_training_status (mkStatus "error" ("Training failed: " ++ str_exn w e)%string)).

(** The closure [run_training] of [start_training], run without
    interruption. *)
Definition run_training (w : World) (request : TrainingRequest) : Py App unit :=
  try_except
    (run_training_begin ;;
     import_ (import_train_production w) ;;
     let config_path := or_default (config_path request) default_config_path in
     call (train_main w config_path) ;;
     set_training_status (mkStatus "completed" "Training completed successfully"))
    (fun e =>
       set_training_status (mkStatus "error" ("Training failed: " ++ str_exn w e)%string)).

(** [POST /train] *)
Definition start_training (request : TrainingRequest) : Py App Message :=
  app <- get ;;
  if String.eqb (status (training_status app)) "training"
  then raise (HTTPException 409 "Training already in progress")
  else
    add_task request ;;
    set_training_status (mkStatus "starting" "Training task queued") ;;
    ret (mkMessage "success" "Training started in background").

(** [TrainingStatus], the response model of [GET /train/status]. *)
Record TrainingStatus : Type := mkTrainingStatus {
  ts_status : string;
  ts_message : string;
  ts_progress : option (Z * Z);
  ts_logs : option (list string)
}.

(** [GET /train/status]: the status dict unpacked into [TrainingStatus],
    whose other two fields take their default [None]. *)
Definition training_status_endpoint : Py App TrainingStatus :=
  app <- get ;;
  ret (mkTrainingStatus (status (training_status app)) (message (training_status app))
                        None None).

(** The status code of the HTTP response: 200 for a returned value, the code
    of an [HTTPException], and 500 from [global_exception_handler] for any
    other exception. *)
Definition http_status {A} (r : Exn + A) : Z :=
  match r with
  | inr _ => 200
  | inl (HTTPException code _) => code
  | inl (PyError _ _) => 500
  end.

(** ** The training coordinator as a transition system *)

(** What can happen to the training state: a [POST /train] request, a poll
    of [GET /train/status], a queued job beginning (its first assignment),
    and a running job coming to its end ([train_main] returns or raises).
    Jobs are named by their position in [queued] or [running]; the server
    runs [run_training] in a worker thread, so requests are served between
    the beginning and the end of a job. *)
Inductive Event : Type :=
| PostTrain (request : TrainingRequest)
| GetTrainStatus
| JobBegin (i : nat)
| JobEnd (i : nat).

Inductive Observation : Type :=
| TrainReply (r : Exn + Message)
| StatusReply (r : Exn + TrainingStatus)
| Silent.

Definition remove_nth {A} (i : nat) (l : list A) : list A :=
  firstn i l ++ skipn (S i) l.

Definition job_begin (i : nat) (app : App) : App :=
  match nth_error (queued app) i with
  | None => app
  | Some r =>
      snd (run_training_begin
             (mkApp (model_manager app) (training_status app)
                    (remove_nth i (queued app)) (running app ++ [r])))
  end.

Definition job_end (w : World) (i : nat) (app : App) : App :=
  match nth_error (running app) i with
  | None => app
  | Some r =>
      snd (run_training_rest w r
             (mkApp (model_manager app) (training_status app)
                    (queued app) (remove_nth i (running app))))
  end.

Definition step (w : World) (ev : Event) (app : App) : Observation * App :=
  match ev with
  | PostTrain request =>
      let (r, app') := start_training request app in (TrainReply r, app')
  | GetTrainStatus =>
      let (r, app') := training_status_endpoint app in (StatusReply r, app')
  | JobBegin i => (Silent, job_begin i app)
  | JobEnd i => (Silent, job_end w i app)
  end.

(** A schedule is a list of events, each with the world it happens in. *)
Fixpoint run (sched : list (World * Event)) (app : App) : list Observation * App :=
  match sched with
  | [] => ([], app)
  | (w, ev) :: rest =>
      let (o, app') := step w ev app in
      let (os, app'') := run rest app' in
      (o :: os, app'')
  end.

(** The value of the status field after each event of a schedule. *)
Fixpoint statuses (sched : list (World * Event)) (app : App) : list string :=
  match sched with
  | [] => []
  | (w, ev) :: rest =>
      let app' := snd (step w ev app) in
      status (training_status app') :: statuses rest app'
  end.

(** ** Vocabulary of the statements *)

(** The state machine as the specification words it: idle, starting,
    training, then completed or error; a start from completed or error
    restarts the cycle. *)
Definition spec_transition (a b : string) : bool :=
  existsb (fun '(x, y) => String.eqb a x && String.eqb b y)
    [ ("idle", "starting"); ("starting", "training");
      ("training", "completed"); ("training", "error");
      ("completed", "starting"); ("error", "starting") ].

Fixpoint follows_spec (from : string) (l : list string) : bool :=
  match l with
  | [] => true
  | s :: rest => (String.eqb from s || spec_transition from s) && follows_spec s rest
  end.

Definition status_values : list string :=
  [ "idle"; "starting"; "training"; "completed"; "error" ].

(** A manager with its flag cleared, as the [except] branch of [load_model]
    leaves it. *)
Definition mark_unloaded (self : ModelManager) : ModelManager :=
  mkModelManager (model self) (tokenizer self) (model_name self) false.

(** The tokenizer as [load_model] leaves it: a missing padding token is
    aliased to the end-of-sequence token. *)
Definition padded (tok : Tokenizer) : Tokenizer :=
  match pad_token tok with
  | None => with_pad_token tok (eos_token tok)
  | Some _ => tok
  end.

(** All of the manager's state comes from one load of [p]. *)
Definition loaded_from (w : World) (p : string) (self : ModelManager) : Prop :=
  exists tok m,
    AutoTokenizer_from_pretrained w (Some p) = inr tok /\
    tokenizer self = Some (padded tok) /\
    model self = Some m /\
    (m = AutoModelForCausalLM p \/
     m = PeftModel (AutoModelForCausalLM base_model_name) p) /\
    model_name self = Some p /\
    is_loaded self = true.

Definition with_manager (app : App) (self : ModelManager) : App :=
  mkApp (Some self) (training_status app) (queued app) (running app).

(** The manager an endpoint works on: the existing one, or a new one after
    its default load. *)
Definition ensure_manager (w : World) (app : App) : ModelManager :=
  match model_manager app with
  | Some self => self
  | None => snd (load_model w None ModelManager_init)
  end.

(** [os.path.exists(p) and "adapter_config.json" in os.listdir(p)] is true. *)
Definition has_adapter_marker (w : World) (p : string) : Prop :=
  path_exists w p = true /\
  exists files, listdir w p = inr files /\ string_in adapter_marker files = true.

(** The same condition is false. *)
Definition lacks_adapter_marker (w : World) (p : string) : Prop :=
  path_exists w p = false \/
  exists files, listdir w p = inr files /\ string_in adapter_marker files = false.

(** [POST /load_model?model_path=p] returns, the manager then holds [m], and
    every later [GET /model_status] reports it loaded under the name [p]. *)
Definition load_yields (w : World) (p : string) (app : App) (m : Model) : Prop :=
  exists msg app1 self1,
    load_model_endpoint w (Some p) app = (inr msg, app1) /\
    model_manager app1 = Some self1 /\
    model self1 = Some m /\
    forall w',
      fst (model_status w' app1)
        = inr (mkModelStatus true (Some p) (Some (class_name w' m))).

(** A text that does not begin with white space. *)
Definition starts_clean (s : pystr) : Prop :=
  match s with
  | c :: _ => py_isspace c = false
  | [] => True
  end.

(** At most one job is outstanding, and the status tells where it is. *)
Definition one_job (app : App) : Prop :=
  (status (training_status app) = "starting" /\
   length (queued app) = 1 /\ running app = []) \/
  (status (training_status app) = "training" /\
   queued app = [] /\ length (running app) = 1) \/
  (In (status (training_status app)) ["idle"; "completed"; "error"] /\
   queued app = [] /\ running app = []).

(** No start request of the schedule arrives while the status is
    [starting]. *)
Fixpoint no_start_while_starting (sched : list (World * Event)) (app : App) : bool :=
  match sched with
  | [] => true
  | (w, ev) :: rest =>
      match ev with
      | PostTrain _ => negb (String.eqb (status (training_status app)) "starting")
      | _ => true
      end
      && no_start_while_starting rest (snd (step w ev app))
  end.

Definition same_config (r1 r2 : TrainingRequest) : Prop :=
  config_path r1 = config_path r2.

(** Two process states that agree on everything but the unused fields of the
    requests their jobs hold. *)
Definition app_sim (a b : App) : Prop :=
  model_manager a = model_manager b /\
  training_status a = training_status b /\
  Forall2 same_config (queued a) (queued b) /\
  Forall2 same_config (running a) (running b).

Inductive event_sim : Event -> Event -> Prop :=
| sim_post r1 r2 : same_config r1 r2 -> event_sim (PostTrain r1) (PostTrain r2)
| sim_same ev : event_sim ev ev.

Definition sched_sim : list (World * Event) -> list (World * Event) -> Prop :=
  Forall2 (fun x y => fst x = fst y /\ event_sim (snd x) (snd y)).

(** ** Worlds and inputs used in examples *)

Definition no_such_file (p : string) : Exn :=
  PyError "FileNotFoundError" p.

Definition simple_tokenizer (p : option string) : Tokenizer :=
  mkTokenizer (describe p) None (Some (pystr_of_string "<|endoftext|>")) (Some 50256%Z).

Definition show_exn (e : Exn) : string :=
  match e with
  | HTTPException _ detail => detail
  | PyError _ msg => msg
  end.

(** No local files; every download, generation and training run succeeds;
    generation echoes the prompt and appends three tokens, and decoding drops
    the end-of-sequence token and reads the other ids as code points. *)
Definition online_world : World :=
  mkWorld
    (fun _ => false)
    (fun p => inl (no_such_file p))
    None
    (fun p => inr (simple_tokenizer p))
    (fun _ => None)
    (fun _ _ => None)
    (fun m => match m with AutoModelForCausalLM _ => "GPT2LMHeadModel" | PeftModel _ _ => "PeftModelForCausalLM" end)
    None
    (fun _ s => inr (map Z.of_N (firstn (length s - 13) s) ++ [50256%Z]))
    (fun _ inputs _ _ _ => inr [inputs ++ [32; 111; 107; 10; 50256]%Z])
    (fun _ row => inr (map Z.to_N (filter (fun t => negb (Z.eqb t 50256)) row)))
    None
    (fun _ => inr tt)
    show_exn.

(** No network and no local files: every download raises. *)
Definition offline_world : World :=
  mkWorld
    (fun _ => false)
    (fun p => inl (no_such_file p))
    None
    (fun p => inl (PyError "OSError" "cannot reach the model hub"))
    (fun _ => Some (PyError "OSError" "cannot reach the model hub"))
    (fun _ _ => Some (PyError "OSError" "cannot reach the model hub"))
    (fun _ => "object")
    None
    (fun _ _ => inl (PyError "RuntimeError" "no tokenizer"))
    (fun _ _ _ _ _ => inl (PyError "RuntimeError" "no model"))
    (fun _ _ => inl (PyError "RuntimeError" "no tokenizer"))
    (Some (PyError "ModuleNotFoundError" "No module named 'scripts.train_production'"))
    (fun _ => inl (PyError "RuntimeError" "training failed"))
    show_exn.

(** A directory [outputs/lora] that holds an adapter, and a tokenizer for
    [broken/model] whose weights cannot be read. *)
Definition adapter_world : World :=
  mkWorld
    (fun p => String.eqb p "outputs/lora")
    (fun p => if String.eqb p "outputs/lora"
              then inr ["adapter_config.json"; "adapter_model.bin"]
              else inl (no_such_file p))
    None
    (fun p => inr (simple_tokenizer p))
    (fun p => if String.eqb p "broken/model"
              then Some (PyError "OSError" "no file named pytorch_model.bin")
              else None)
    (fun _ _ => None)
    (fun m => match m with AutoModelForCausalLM _ => "GPT2LMHeadModel" | PeftModel _ _ => "PeftModelForCausalLM" end)
    None
    (fun _ s => inr (map Z.of_N s))
    (fun _ inputs _ _ _ => inr [inputs])
    (fun _ row => inr (map Z.to_N row))
    None
    (fun _ => inr tt)
    show_exn.

(** A manager that serves the model [A]. *)
Definition manager_A : ModelManager :=
  mkModelManager (Some (AutoModelForCausalLM "A"))
                 (Some (padded (simple_tokenizer (Some "A"))))
                 (Some "A") true.

(** The manager that the default load builds in [online_world]. *)
Definition online_manager : ModelManager :=
  snd (load_model online_world None ModelManager_init).

(** The defaults of [ChatRequest]: temperature 0.7 and top_p 0.9. *)
Definition default_sampling : Sampling :=
  mkSampling (Some (7, 10)%Z) (Some (9, 10)%Z).

Definition hello_request : ChatRequest :=
  mkChatRequest (pystr_of_string "hello") (Some 100%Z) default_sampling.

(** The request that an empty body stands for: the defaults of
    [TrainingRequest]. *)
Definition plain_request : TrainingRequest :=
  mkTrainingRequest (Some "configs/production-config.yaml") None
                    (Some "outputs/production_training").

(** Two starts before the first job begins, the first job from beginning to
    end, then the beginning of the second. *)
Definition double_start : list (World * Event) :=
  [ (online_world, PostTrain plain_request);
    (online_world, PostTrain plain_request);
    (online_world, JobBegin 0);
    (online_world, JobEnd 0);
    (online_world, JobBegin 0) ].

Definition request_a : TrainingRequest :=
  mkTrainingRequest (Some "configs/small.yaml") (Some "data/a.jsonl")
                    (Some "outputs/a").

Definition request_b : TrainingRequest :=
  mkTrainingRequest (Some "configs/small.yaml") None (Some "outputs/b").

(** ** Requests in any order *)

(** The requests to the model endpoints, and the events of the training
    coordinator, as one alphabet. *)
Inductive Call : Type :=
| PostChat (request : ChatRequest)
| PostLoadModel (model_path : option string)
| GetModelStatus
| Training (ev : Event).

Definition reply_status (o : Observation) : option Z :=
  match o with
  | TrainReply r => Some (http_status r)
  | StatusReply r => Some (http_status r)
  | Silent => None
  end.

(** One call: the status code of the response, if the call is a request, and
    the process state after it. *)
Definition serve (w : World) (c : Call) (app : App) : option Z * App :=
  match c with
  | PostChat request =>
      let (r, app') := chat w request app in (Some (http_status r), app')
  | PostLoadModel model_path =>
      let (r, app') := load_model_endpoint w model_path app in
      (Some (http_status r), app')
  | GetModelStatus =>
      let (r, app') := model_status w app in (Some (http_status r), app')
  | Training ev =>
      let (o, app') := step w ev app in (reply_status o, app')
  end.

Fixpoint serve_all (calls : list (World * Call)) (app : App)
  : list (option Z) * App :=
  match calls with
  | [] => ([], app)
  | (w, c) :: rest =>
      let (code, app') := serve w c app in
      let (codes, app'') := serve_all rest app' in
      (code :: codes, app'')
  end.

(** A manager whose flag is set holds a model, a tokenizer and the name the
    model was loaded under, and its tokenizer has a padding token unless it
    has no end-of-sequence token either. *)
Definition well_loaded (self : ModelManager) : Prop :=
  is_loaded self = true ->
  exists p tok,
    model_name self = Some p /\
    (model self = Some (AutoModelForCausalLM p) \/
     model self = Some (PeftModel (AutoModelForCausalLM base_model_name) p)) /\
    tokenizer self = Some tok /\
    (pad_token tok = None -> eos_token tok = None).

Definition manager_ok (app : App) : Prop :=
  match model_manager app with
  | Some self => well_loaded self
  | None => True
  end.

Definition is_poll (ev : World * Event) : bool :=
  match snd ev with
  | GetTrainStatus => true
  | _ => false
  end.

(** The status records that the code writes. *)
Definition record_ok (st : StatusRecord) : Prop :=
  In st [ mkStatus "idle" "No training in progress";
          mkStatus "starting" "Training task queued";
          mkStatus "training" "Training started";
          mkStatus "completed" "Training completed successfully" ] \/
  (status st = "error" /\
   exists text, message st = ("Training failed: " ++ text)%string).

(** The exception that ends a training job, if any: of the import of the
    entry point, or of the entry point itself. *)
Definition training_failure (w : World) (request : TrainingRequest) : option Exn :=
  match import_train_production w with
  | Some e => Some e
  | None =>
      match train_main w (or_default (config_path request) default_config_path) with
      | inl e => Some e
      | inr _ => None
      end
  end.

(** The record a job leaves behind. *)
Definition final_record (w : World) (request : TrainingRequest) : StatusRecord :=
  match training_failure w request with
  | None => mkStatus "completed" "Training completed successfully"
  | Some e => mkStatus "error" ("Training failed: " ++ str_exn w e)%string
  end.

(** Like [online_world], but generation adds no token to the prompt. *)
Definition echo_world : World :=
  mkWorld
    (fun _ => false)
    (fun p => inl (no_such_file p))
    None
    (fun p => inr (simple_tokenizer p))
    (fun _ => None)
    (fun _ _ => None)
    (fun _ => "GPT2LMHeadModel")
    None
    (fun _ s => inr (map Z.of_N (firstn (length s - 13) s) ++ [50256%Z]))
    (fun _ inputs _ _ _ => inr [inputs])
    (fun _ row => inr (map Z.to_N (filter (fun t => negb (Z.eqb t 50256)) row)))
    None
    (fun _ => inr tt)
    show_exn.

(** ** GET /models *)

(** A loop [for x in l: body] over a local that the body mutates. *)
Fixpoint for_each {S A} (l : list A) (body : A -> Py S unit) : Py S unit :=
  match l with
  | [] => ret tt
  | x :: rest => body x ;; for_each rest body
  end.

(** [l.append(x)] *)
Definition append_item {A} (x : A) : Py (list A) unit :=
  modify (fun l => l ++ [x]).

Fixpoint ends_with_slash (s : string) : bool :=
  match s with
  | EmptyString => false
  | String c EmptyString => Ascii.eqb c "/"
  | String _ rest => ends_with_slash rest
  end.

(** [os.path.join(a, b)] of [posixpath]. *)
Definition os_path_join (a b : string) : string :=
  if String.prefix "/" b then b
  else if String.eqb a "" || ends_with_slash a then (a ++ b)%string
  else (a ++ "/" ++ b)%string.

(** One element of the list that [/models] returns. *)
Record ModelEntry : Type := mkModelEntry {
  entry_name : string;
  entry_path : string;
  entry_type : string
}.

Definition model_dirs : list string :=
  [ "outputs/production_training"; "models"; "checkpoints" ].

Definition base_models : list string :=
  [ "microsoft/DialoGPT-medium";
    "microsoft/DialoGPT-small";
    "microsoft/DialoGPT-large" ].

(** The body of [list_models], over the local list [models];
    [isdir] is [os.path.isdir]. *)
Definition list_models_body (w : World) (isdir : string -> bool)
  : Py (list ModelEntry) unit :=
  for_each model_dirs
    (fun model_dir =>
       if path_exists w model_dir
       then
         items <- call (listdir w model_dir) ;;
         for_each items
           (fun item =>
              let item_path := os_path_join model_dir item in
              if isdir item_path
              then append_item (mkModelEntry item item_path "local")
              else ret tt)
       else ret tt) ;;
  for_each base_models
    (fun model => append_item (mkModelEntry model model "huggingface")).

(** [GET /models]: the value of the key ["models"] of the response. *)
Definition list_models (w : World) (isdir : string -> bool)
  : Exn + list ModelEntry :=
  match list_models_body w isdir [] with
  | (inr _, models) => inr models
  | (inl e, _) => inl e
  end.

(** The directories of [dir] as [list_models] reports them. *)
Definition local_entries (w : World) (isdir : string -> bool) (dir : string)
  : list ModelEntry :=
  if path_exists w dir
  then
    match listdir w dir with
    | inr items =>
        map (fun item => mkModelEntry item (os_path_join dir item) "local")
            (filter (fun item => isdir (os_path_join dir item)) items)
    | inl _ => []
    end
  else [].

Definition hub_entries : list ModelEntry :=
  [ mkModelEntry "microsoft/DialoGPT-medium" "microsoft/DialoGPT-medium" "huggingface";
    mkModelEntry "microsoft/DialoGPT-small" "microsoft/DialoGPT-small" "huggingface";
    mkModelEntry "microsoft/DialoGPT-large" "microsoft/DialoGPT-large" "huggingface" ].

(** ** scripts/merge_lora.py *)

(** The calls that write to disk, in the order they are made. *)
Inductive SaveCall : Type :=
| SaveModel (merged : Model) (output_dir : string)
    (* model.merge_and_unload().save_pretrained(output_dir) *)
| SaveTokenizer (tok : Tokenizer) (output_dir : string).
    (* tokenizer.save_pretrained(output_dir) *)

(** The library calls of the script that [World] does not have. *)
Record MergeWorld : Type := mkMergeWorld {
  (* the exception, if any, of model.merge_and_unload() *)
  merge_fails : Model -> option Exn;
  (* the exception, if any, of model.save_pretrained(output_dir) *)
  save_model_fails : Model -> string -> option Exn;
  (* the exception, if any, of tokenizer.save_pretrained(output_dir) *)
  save_tokenizer_fails : Tokenizer -> string -> option Exn
}.

Definition record_call (c : SaveCall) : Py (list SaveCall) unit :=
  modify (fun calls => calls ++ [c]).

(** [merge_lora(base_model_name, lora_model_path, output_dir)], over the
    list of save calls made so far. *)
Definition merge_lora (w : World) (mw : MergeWorld)
    (base_model_name lora_model_path output_dir : string)
  : Py (list SaveCall) unit :=
  import_ (causal_lm_fails w base_model_name) ;;
  let base_model := AutoModelForCausalLM base_model_name in
  tokenizer <- call (AutoTokenizer_from_pretrained w (Some base_model_name)) ;;
  import_ (peft_fails w base_model lora_model_path) ;;
  let model := PeftModel base_model lora_model_path in
  import_ (merge_fails mw model) ;;
  record_call (SaveModel model output_dir) ;;
  import_ (save_model_fails mw model output_dir) ;;
  record_call (SaveTokenizer tokenizer output_dir) ;;
  import_ (save_tokenizer_fails mw tokenizer output_dir).

(** One turn of the outer loop of [list_models]. *)
Definition scan_dir (w : World) (isdir : string -> bool) (model_dir : string)
  : Py (list ModelEntry) unit :=
  if path_exists w model_dir
  then
    items <- call (listdir w model_dir) ;;
    for_each items
      (fun item =>
         let item_path := os_path_join model_dir item in
         if isdir item_path
         then append_item (mkModelEntry item item_path "local")
         else ret tt)
  else ret tt.

(** A [models] directory with one model directory and one file in it. *)
Definition models_world : World :=
  mkWorld
    (fun p => String.eqb p "models")
    (fun p => if String.eqb p "models"
              then inr ["fine_tuned_model"; "README.md"]
              else inl (no_such_file p))
    None
    (fun p => inr (simple_tokenizer p))
    (fun _ => None)
    (fun _ _ => None)
    (fun _ => "GPT2LMHeadModel")
    None
    (fun _ s => inr (map Z.of_N s))
    (fun _ inputs _ _ _ => inr [inputs])
    (fun _ row => inr (map Z.to_N row))
    None
    (fun _ => inr tt)
    show_exn.

(** A plain file named [checkpoints] and nothing else. *)
Definition checkpoints_file_world : World :=
  mkWorld
    (fun p => String.eqb p "checkpoints")
    (fun p => inl (PyError "NotADirectoryError" p))
    None
    (fun p => inr (simple_tokenizer p))
    (fun _ => None)
    (fun _ _ => None)
    (fun _ => "GPT2LMHeadModel")
    None
    (fun _ s => inr (map Z.of_N s))
    (fun _ inputs _ _ _ => inr [inputs])
    (fun _ row => inr (map Z.to_N row))
    None
    (fun _ => inr tt)
    show_exn.

Definition models_isdir (p : string) : bool :=
  String.eqb p "models/fine_tuned_model".

(** Every step before the saves of [merge_lora] succeeds, and the tokenizer
    of the base model is [tok]. *)
Definition merge_ready (w : World) (mw : MergeWorld)
    (base lora : string) (tok : Tokenizer) : Prop :=
  causal_lm_fails w base = None /\
  AutoTokenizer_from_pretrained w (Some base) = inr tok /\
  peft_fails w (AutoModelForCausalLM base) lora = None /\
  merge_fails mw (PeftModel (AutoModelForCausalLM base) lora) = None.

(** A merge world in which nothing fails, and one whose disk is full when
    the tokenizer is written. *)
Definition merge_world_ok : MergeWorld :=
  mkMergeWorld (fun _ => None) (fun _ _ => None) (fun _ _ => None).

Definition merge_world_disk_full : MergeWorld :=
  mkMergeWorld (fun _ => None) (fun _ _ => None)
               (fun _ _ => Some (PyError "OSError" "No space left on device")).

(** ** quick_start.py *)

(** The script prints its progress and returns values that decide what runs
    next; the model keeps the values, the processes it launches and the
    exceptions it lets through, and leaves the printing out (printing is
    taken to succeed). *)
Module quick_start.

(** The [command] argument of [subprocess.run]: a string, run through the
    shell, or a list of arguments. *)
Inductive Command : Type :=
| ShellLine (line : string)
| Argv (argv : list string).

Record CompletedProcess : Type := mkCompleted {
  returncode : Z;
  stdout : string;
  stderr : string
}.

(** How a launched process ends, as [subprocess.run] meets it. *)
Inductive Launch : Type :=
| NotStarted (e : Exn)
    (* the process could not be started: program not found, no permission;
       [e] is the exception of [subprocess.run], an [Exception] *)
| Exited (code : Z) (out err : Exn + string).
    (* the process ended with this return code; each captured stream is its
       bytes decoded as text, which text=True asks for, or the
       UnicodeDecodeError of that decoding *)

(** A value as [json.load] builds it, as far as formatting looks at it: an
    [int], a [float] (which may be inf or nan), a [str], a [bool], [None],
    a list or a dict. *)
Inductive JsonValue : Type :=
| JInt (n : Z)
| JFloat (text : string)
| JString (s : string)
| JBool (b : bool)
| JNull
| JList
| JDict.

Record Shell : Type := mkShell {
  (* sys.executable *)
  sys_executable : string;
  (* what a launched process does to the files, and how it ends *)
  proc : Command -> (string -> bool) -> Launch * (string -> bool);
  (* input(prompt) *)
  user_input : Exn + pystr;
  (* datetime.now().strftime("%Y%m%d_%H%M%S") *)
  now_stamp : string;
  (* open(<results_dir>/detailed_results.json) and json.load: the object
     read, or the exception of reading it (or of the first results.get,
     when the file holds a value that is not an object) *)
  read_results : string -> Exn + list (string * JsonValue)
}.

(** The files that exist ([Path(p).exists()]) and the commands handed to
    [subprocess.run] so far, in order. *)
Record Machine : Type := mkMachine {
  files : string -> bool;
  launched : list Command
}.

(** [subprocess.run(command, check=check, capture_output=True, text=True)]:
    it raises when the process cannot be started and when the output of a
    process that has ended cannot be decoded, standard output first; with
    [check], a non-zero return code raises [CalledProcessError]. *)
Definition subprocess_run (sh : Shell) (command : Command) (check : bool)
  : Py Machine CompletedProcess :=
  fun m =>
    let (r, files') := proc sh command (files m) in
    let m' := mkMachine files' (launched m ++ [command]) in
    match r with
    | NotStarted e => (inl e, m')
    | Exited code (inl e) _ => (inl e, m')
    | Exited code (inr _) (inl e) => (inl e, m')
    | Exited code (inr out) (inr err) =>
        if check && negb (code =? 0)%Z
        then (inl (PyError "CalledProcessError" "non-zero exit status"), m')
        else (inr (mkCompleted code out err), m')
    end.

(** [run_command(command, description, check)] *)
Definition run_command (sh : Shell) (command : Command) (description : string)
    (check : bool) : Py Machine bool :=
  try_except
    (result <- subprocess_run sh command check ;;
     if (returncode result =? 0)%Z then ret true else ret false)
    (fun _ => ret false).

Definition required_files : list string :=
  [ "scripts/train_production.py";
    "scripts/benchmark.py";
    "configs/production-config.yaml";
    "data/training_data.jsonl";
    "data/test_data.jsonl" ].

(** [validate_setup()] *)
Definition validate_setup : Py Machine bool :=
  m <- get ;;
  if negb (files m "scripts/train_production.py")
  then ret false
  else
    let missing_files := filter (fun file_path => negb (files m file_path)) required_files in
    match missing_files with
    | _ :: _ => ret false
    | [] => ret true
    end.

Definition production_command (sh : Shell) : Command :=
  Argv [ sys_executable sh; "scripts/train_production.py";
         "--config"; "configs/production-config.yaml" ].

Definition fallback_command (sh : Shell) : Command :=
  Argv [ sys_executable sh; "scripts/train_production.py";
         "--config"; "configs/test-config.yaml";
         "--output"; "models/production-model" ].

(** [run_training()] *)
Definition run_training (sh : Shell) : Py Machine bool :=
  success <- run_command sh (production_command sh) "Production training" false ;;
  if negb success
  then run_command sh (fallback_command sh) "Fallback training (test config)" false
  else ret success.

Definition benchmark_command (sh : Shell) (model_path results_dir : string) : Command :=
  Argv [ sys_executable sh; "scripts/benchmark.py";
         "--model"; model_path;
         "--test-data"; "data/test_data.jsonl";
         "--output"; results_dir ].

(** [run_benchmark(model_path)] *)
Definition run_benchmark (sh : Shell) (model_path : string)
  : Py Machine (option string) :=
  let results_dir := ("results/benchmark_" ++ now_stamp sh)%string in
  success <- run_command sh (benchmark_command sh model_path results_dir)
               "Model benchmarking" false ;;
  if success then ret (Some results_dir) else ret None.

Fixpoint dict_get (key : string) (d : list (string * JsonValue)) : option JsonValue :=
  match d with
  | [] => None
  | (k, v) :: rest => if String.eqb k key then Some v else dict_get key rest
  end.

(** The integers from here on, in absolute value, do not convert to a
    [float]: they round to 2^1024 or lie beyond it. *)
Definition float_limit : Z := (2 ^ 1024 - 2 ^ 970)%Z.

(** The exception, if any, of formatting [v] with a [.2f] or [.3f]
    specification: an [int] is converted to a [float] first. *)
Definition format_fixed (v : JsonValue) : option Exn :=
  match v with
  | JInt n =>
      if (float_limit <=? Z.abs n)%Z
      then Some (PyError "OverflowError" "int too large to convert to float")
      else None
  | JFloat _ | JBool _ => None
  | JString _ =>
      Some (PyError "ValueError" "Unknown format code 'f' for object of type 'str'")
  | JNull =>
      Some (PyError "TypeError" "unsupported format string passed to NoneType.__format__")
  | JList =>
      Some (PyError "TypeError" "unsupported format string passed to list.__format__")
  | JDict =>
      Some (PyError "TypeError" "unsupported format string passed to dict.__format__")
  end.

Definition metrics : list string :=
  [ "perplexity"; "bleu_4"; "rouge_l"; "semantic_similarity";
    "exact_match"; "avg_inference_time_ms" ].

(** [results.get(key, 'N/A')] *)
Definition get_metric (results : list (string * JsonValue)) (key : string) : JsonValue :=
  match dict_get key results with
  | Some v => v
  | None => JString "N/A"
  end.

(** [show_results(results_dir)]; the file under the directory is
    [Path(results_dir) / "detailed_results.json"]. *)
Definition show_results (sh : Shell) (results_dir : option string)
  : Py Machine unit :=
  m <- get ;;
  match results_dir with
  | None => ret tt
  | Some dir =>
      if String.eqb dir "" || negb (files m dir)
      then ret tt
      else if files m (dir ++ "/detailed_results.json")%string
      then
        results <- call (read_results sh dir) ;;
        for_each metrics (fun key => import_ (format_fixed (get_metric results key)))
      else ret tt
  end.

(** [c.lower()] for one code point of the ASCII range; no code point
    outside it has [y], [e] or [s] as its lower case, so the test below is
    the one the script makes. *)
Definition lower_ascii (c : N) : N :=
  if ((65 <=? c) && (c <=? 90))%N then (c + 32)%N else c.

(** [a == b] on texts. *)
Fixpoint pystr_eqb (a b : pystr) : bool :=
  match a, b with
  | [], [] => true
  | x :: a', y :: b' => N.eqb x y && pystr_eqb a' b'
  | _, _ => false
  end.

(** [response.lower() in ['y', 'yes']] *)
Definition confirms (response : pystr) : bool :=
  existsb (fun word => pystr_eqb (map lower_ascii response) (pystr_of_string word))
          [ "y"; "yes" ].

(** [main()]: the exit code. *)
Definition main (sh : Shell) : Py Machine Z :=
  valid <- validate_setup ;;
  if negb valid then ret 1%Z
  else
    response <- call (user_input sh) ;;
    if negb (confirms response) then ret 0%Z
    else
      training_success <- run_training sh ;;
      if negb training_success then ret 1%Z
      else
        let model_path := "models/production-model" in
        m <- get ;;
        if negb (files m model_path) then ret 1%Z
        else
          results_dir <- run_benchmark sh model_path ;;
          match results_dir with
          | None => ret 1%Z
          | Some dir =>
              if String.eqb dir "" then ret 1%Z
              else show_results sh (Some dir) ;; ret 0%Z
          end.

(** The machine after [command] has been launched on it, and whether the
    process started, ended with return code 0 and left output that could be
    decoded. *)
Definition after (sh : Shell) (command : Command) (m : Machine) : Machine :=
  mkMachine (snd (proc sh command (files m))) (launched m ++ [command]).

Definition succeeded (sh : Shell) (command : Command) (m : Machine) : bool :=
  match fst (proc sh command (files m)) with
  | Exited code (inr _) (inr _) => (code =? 0)%Z
  | _ => false
  end.

(** A value that the float formats of [show_results] accept. *)
Definition formattable (v : JsonValue) : bool :=
  match v with
  | JInt n => (Z.abs n <? float_limit)%Z
  | JFloat _ | JBool _ => true
  | JString _ | JNull | JList | JDict => false
  end.

(** One of the two training commands succeeded, and the machine after the
    commands that [run_training] launches. *)
Definition trained (sh : Shell) (m : Machine) : bool :=
  succeeded sh (production_command sh) m
  || succeeded sh (fallback_command sh) (after sh (production_command sh) m).

Definition after_training (sh : Shell) (m : Machine) : Machine :=
  if succeeded sh (production_command sh) m
  then after sh (production_command sh) m
  else after sh (fallback_command sh) (after sh (production_command sh) m).

Definition results_dir_of (sh : Shell) : string :=
  ("results/benchmark_" ++ now_stamp sh)%string.

(** The first exception among the checks [f] of the elements of [l]. *)
Fixpoint first_error {A} (f : A -> option Exn) (l : list A) : option Exn :=
  match l with
  | [] => None
  | x :: rest =>
      match f x with
      | Some e => Some e
      | None => first_error f rest
      end
  end.

Definition is_present (results : list (string * JsonValue)) (key : string) : bool :=
  match dict_get key results with
  | Some _ => true
  | None => false
  end.

(** The answers that [main] takes for a yes. *)
Definition yes_answers : list pystr :=
  map pystr_of_string
    [ "y"; "Y"; "yes"; "yeS"; "yEs"; "yES"; "Yes"; "YeS"; "YEs"; "YES" ].

(** A project directory with every required file, where the production
    training fails, the fallback training succeeds and writes the model,
    and the benchmark succeeds and writes its results directory with a
    results file that lacks the metric [rouge_l]. *)
Definition project_files (p : string) : bool :=
  existsb (String.eqb p) required_files.

Definition demo_shell : Shell :=
  mkShell
    "python"
    (fun command fs =>
       match command with
       | Argv [_; "scripts/train_production.py"; "--config"; "configs/production-config.yaml"] =>
           (Exited 1 (inr "") (inr "CUDA out of memory"), fs)
       | Argv (_ :: "scripts/train_production.py" :: _) =>
           (Exited 0 (inr "done") (inr ""),
            fun p => String.eqb p "models/production-model" || fs p)
       | Argv (_ :: "scripts/benchmark.py" :: _) =>
           (Exited 0 (inr "done") (inr ""),
            fun p => String.eqb p "results/benchmark_20240101_120000"
                     || String.eqb p "results/benchmark_20240101_120000/detailed_results.json"
                     || fs p)
       | _ => (NotStarted (PyError "FileNotFoundError" "no such program"), fs)
       end)
    (inr (pystr_of_string "Yes"))
    "20240101_120000"
    (fun _ => inr [ ("perplexity", JFloat "12.5"); ("bleu_4", JFloat "0.31") ]).

Definition demo_machine : Machine := mkMachine project_files [].

(** The same project, with a user who answers [n]. *)
Definition declining_shell : Shell :=
  mkShell "python" (proc demo_shell) (inr (pystr_of_string "n"))
          "20240101_120000" (read_results demo_shell).

(** A process that ends with return code 0 after writing a byte that is not
    text to its standard output. *)
Definition binary_output_shell : Shell :=
  mkShell
    "python"
    (fun _ fs =>
       (Exited 0 (inl (PyError "UnicodeDecodeError" "invalid start byte")) (inr ""), fs))
    (inr (pystr_of_string "y"))
    "20240101_120000"
    (fun _ => inr []).

End quick_start.

(** ** app/gradio_app.py *)

(** The functions behind the chat box and the load button of the web
    interface.  They talk to the API over HTTP; the texts they display are
    kept as the f-string that builds them and its arguments. *)
Module gradio_app.

Inductive Json : Type :=
| JStr (s : pystr)
| JNum (text : string)
| JNone
| JOther.

(** A parsed response body: an object with its fields, or another value. *)
Inductive JsonDoc : Type :=
| JObject (fields : list (string * Json))
| JNotObject.

Definition API_BASE_URL : string := "http://localhost:8000".

Record HttpRequest : Type := mkRequest {
  req_method : string;
  req_url : string;
  req_query : list (string * string);
  req_json : list (string * Json)
}.

Record HttpResponse : Type := mkResponse {
  status_code : Z;
  text : pystr;
  (* response.json() *)
  json : Exn + JsonDoc
}.

Record Net : Type := mkNet {
  (* requests.post(url, json=..., timeout=...) *)
  send : HttpRequest -> Exn + HttpResponse;
  (* isinstance(e, requests.exceptions.RequestException) *)
  is_request_exception : Exn -> bool;
  (* int(x) and float(x) *)
  int_of : Json -> Exn + Json;
  float_of : Json -> Exn + Json
}.

(** What a cell of the chat history or a status box shows. *)
Inductive Display : Type :=
| BotReply (bot_response processing_time : Json)
    (* f"{bot_response}\n\n*Processing time: {processing_time:.2f}s*" *)
| Success (message : Json)
    (* f"Success: {result['message']}" *)
| ErrorStatus (status_code : Z) (text : pystr)
    (* f"Error: {response.status_code} - {response.text}" *)
| ConnectionError (e : Exn)
    (* f"Connection error: {str(e)}" *)
| OtherError (e : Exn).
    (* f"Error: {str(e)}" *)

(** The chat history, a list of [user message, bot message] pairs that the
    function mutates, and the requests sent so far. *)
Record Ui : Type := mkUi {
  history : list (pystr * option Display);
  sent : list HttpRequest
}.

(** [requests.post(url, json=body, timeout=...)] *)
Definition requests_post (net : Net) (url : string) (body : list (string * Json))
  : Py Ui HttpResponse :=
  fun ui =>
    let request := mkRequest "POST" url [] body in
    (send net request, mkUi (history ui) (sent ui ++ [request])).

(** [history.append([message, None])] *)
Definition history_append (message : pystr) : Py Ui unit :=
  modify (fun ui => mkUi (history ui ++ [(message, None)]) (sent ui)).

(** [history[-1][1] = shown] *)
Definition set_last (shown : Display) : Py Ui unit :=
  fun ui =>
    match rev (history ui) with
    | [] => (inl (PyError "IndexError" "list index out of range"), ui)
    | (user, _) :: before =>
        (inr tt, mkUi (rev before ++ [(user, Some shown)]) (sent ui))
    end.

Fixpoint fields_get (key : string) (fields : list (string * Json)) : option Json :=
  match fields with
  | [] => None
  | (k, v) :: rest => if String.eqb k key then Some v else fields_get key rest
  end.

(** [result[key]] *)
Definition subscript {S} (result : JsonDoc) (key : string) : Py S Json :=
  match result with
  | JObject fields =>
      match fields_get key fields with
      | Some v => ret v
      | None => raise (PyError "KeyError" key)
      end
  | JNotObject => raise (PyError "TypeError" "indices must be integers")
  end.

(** The exception, if any, of formatting a value with [.2f]. *)
Definition format_2f (v : Json) : option Exn :=
  match v with
  | JNum _ => None
  | JStr _ =>
      Some (PyError "ValueError" "Unknown format code 'f' for object of type 'str'")
  | JNone | JOther =>
      Some (PyError "TypeError" "unsupported format string passed to __format__")
  end.

(** [not s.strip()] *)
Definition is_blank (s : pystr) : bool :=
  match strip s with
  | [] => true
  | _ :: _ => false
  end.

(** [chat_with_model(message, history, max_length, temperature, top_p)]:
    the second component of the result; the first is the history. *)
Definition chat_with_model (net : Net) (message : pystr)
    (max_length temperature top_p : Json) : Py Ui pystr :=
  if is_blank message
  then ret []
  else
    try_except
      (history_append message ;;
       max_length' <- call (int_of net max_length) ;;
       temperature' <- call (float_of net temperature) ;;
       top_p' <- call (float_of net top_p) ;;
       response <- requests_post net (API_BASE_URL ++ "/chat")%string
                     [ ("message", JStr message); ("max_length", max_length');
                       ("temperature", temperature'); ("top_p", top_p') ] ;;
       if (status_code response =? 200)%Z
       then
         result <- call (json response) ;;
         bot_response <- subscript result "response" ;;
         processing_time <- subscript result "processing_time" ;;
         import_ (format_2f processing_time) ;;
         set_last (BotReply bot_response processing_time)
       else set_last (ErrorStatus (status_code response) (text response)))
      (fun e =>
         if is_request_exception net e
         then set_last (ConnectionError e)
         else set_last (OtherError e)) ;;
    ret [].

(** The body that [load_model] posts. *)
Definition load_model_data (model_path : pystr) : list (string * Json) :=
  if is_blank model_path then [] else [ ("model_path", JStr model_path) ].

(** [load_model(model_path)] *)
Definition load_model (net : Net) (model_path : pystr) : Py Ui Display :=
  try_except
    (let data := load_model_data model_path in
     response <- requests_post net (API_BASE_URL ++ "/load_model")%string data ;;
     if (status_code response =? 200)%Z
     then
       result <- call (json response) ;;
       message <- subscript result "message" ;;
       ret (Success message)
     else ret (ErrorStatus (status_code response) (text response)))
    (fun e => ret (OtherError e)).

(** A server that answers every request with a 503 page. *)
Definition net_503 : Net :=
  mkNet (fun _ => inr (mkResponse 503 (pystr_of_string "Service Unavailable")
                         (inl (PyError "JSONDecodeError" "Expecting value"))))
        (fun _ => false)
        (fun x => inr x)
        (fun x => inr x).

End gradio_app.

(** How FastAPI calls the handler of [POST /load_model] for a request: the
    parameter [model_path: Optional[str] = None] is of a simple type and not
    part of the path, so it is read from the query string, and is [None]
    when the query string has no such key; a JSON body is not looked at. *)
Definition load_model_route (w : World) (request : gradio_app.HttpRequest)
  : Py App Message :=
  load_model_endpoint w
    (match find (fun kv => String.eqb (fst kv) "model_path")
                (gradio_app.req_query request) with
     | Some (_, v) => Some v
     | None => None
     end).

(** * Properties *)

(** ** Reasoning about [Py] computations *)

(** Splits on every oracle answer the goal still branches on. *)
Ltac case_oracles :=
  repeat match goal with
         | |- context [match ?x with _ => _ end] =>
             lazymatch x with
             | context [match _ with _ => _ end] => fail
             | _ => destruct x eqn:?
             end
         | |- context [if ?x then _ else _] =>
             lazymatch x with
             | context [match _ with _ => _ end] => fail
             | _ => destruct x eqn:?
             end
         end.

Ltac unfold_py :=
  cbv beta iota delta
    [bind ret raise try_except get modify call import_ from_option
     set_model set_tokenizer set_model_name set_is_loaded
     set_model_manager set_training_status add_task] in *.

Lemma bind_inr {S A B} (c : Py S A) (k : A -> Py S B) s a s' :
  c s = (inr a, s') -> bind c k s = k a s'.
Proof. intros H. unfold bind. rewrite H. reflexivity. Qed.

Lemma bind_inl {S A B} (c : Py S A) (k : A -> Py S B) s e s' :
  c s = (inl e, s') -> bind c k s = (inl e, s').
Proof. intros H. unfold bind. rewrite H. reflexivity. Qed.

Lemma try_except_inl {S A} (c : Py S A) (h : Exn -> Py S A) s e s' :
  c s = (inl e, s') -> try_except c h s = h e s'.
Proof. intros H. unfold try_except. rewrite H. reflexivity. Qed.

Lemma try_except_inr {S A} (c : Py S A) (h : Exn -> Py S A) s a s' :
  c s = (inr a, s') -> try_except c h s = (inr a, s').
Proof. intros H. unfold try_except. rewrite H. reflexivity. Qed.

(** ** The default probe *)

Lemma determine_model_path_given w p :
  determine_model_path w (Some p) = Some p.
Proof. reflexivity. Qed.

(** The candidate chosen when no path is given: the first local directory
    that exists, else the base model. *)
Lemma determine_model_path_default w :
  determine_model_path w None =
    Some (if path_exists w "outputs/production_training/final_model"
          then "outputs/production_training/final_model"
          else if path_exists w "models/fine_tuned_model"
               then "models/fine_tuned_model"
               else "microsoft/DialoGPT-medium").
Proof.
  unfold determine_model_path, possible_paths. cbn [find].
  destruct (path_exists w "outputs/production_training/final_model"); [reflexivity|].
  destruct (path_exists w "models/fine_tuned_model"); [reflexivity|].
  replace (String.prefix "microsoft/" "microsoft/DialoGPT-medium") with true
    by reflexivity.
  rewrite orb_true_r. reflexivity.
Qed.

Lemma load_model_determined w path p self :
  determine_model_path w path = Some p ->
  load_model w path self = load_model w (Some p) self.
Proof.
  intros H. unfold load_model, load_model_body.
  rewrite H, determine_model_path_given. reflexivity.
Qed.

(** C10. With the identifier omitted, the probe over the candidate list
    always selects one of the candidates, the fallback at the latest, so the
    load proceeds exactly as a load of that candidate: tokenizer and model
    loading never see an absent identifier. *)
Theorem C10_default_probe_selects (w : World) :
  exists p,
    determine_model_path w None = Some p /\
    In p possible_paths /\
    (path_exists w p = true \/ p = base_model_name) /\
    String.prefix "microsoft/" base_model_name = true /\
    forall self, load_model w None self = load_model w (Some p) self.
Proof.
  rewrite determine_model_path_default.
  eexists. split; [reflexivity|].
  split; [|split; [|split; [reflexivity|]]].
  - unfold possible_paths.
    destruct (path_exists w "outputs/production_training/final_model");
      [left; reflexivity|].
    destruct (path_exists w "models/fine_tuned_model");
      [right; left; reflexivity | right; right; left; reflexivity].
  - destruct (path_exists w "outputs/production_training/final_model") eqn:E1;
      [left; exact E1|].
    destruct (path_exists w "models/fine_tuned_model") eqn:E2;
      [left; exact E2 | right; reflexivity].
  - intros self. apply load_model_determined, determine_model_path_default.
Qed.

(** ** Failure of a load *)

(** C5. Whatever makes the body of a load raise, [load_model] raises that
    same exception to its caller, and the manager's [is_loaded] flag is false
    afterwards. *)
Theorem C5_failed_load_unloaded_and_reraised
    (w : World) (path : option string) (self self1 : ModelManager) (e : Exn) :
  load_model_body w path self = (inl e, self1) ->
  load_model w path self = (inl e, mark_unloaded self1) /\
  is_loaded (snd (load_model w path self)) = false.
Proof.
  intros H.
  assert (E : load_model w path self = (inl e, mark_unloaded self1)).
  { unfold load_model. rewrite (try_except_inl _ _ _ _ _ H). reflexivity. }
  rewrite E. split; reflexivity.
Qed.

Lemma C5_failed_load_witness :
  load_model offline_world None ModelManager_init
    = (inl (PyError "OSError" "cannot reach the model hub"), ModelManager_init) /\
  is_loaded (snd (load_model offline_world None ModelManager_init)) = false.
Proof.
  apply (C5_failed_load_unloaded_and_reraised offline_world None
           ModelManager_init ModelManager_init).
  reflexivity.
Defined.

(** Every load either returns with the flag set or raises with it cleared. *)
Lemma load_model_outcome w path self :
  match load_model w path self with
  | (inr _, self') => is_loaded self' = true
  | (inl _, self') => is_loaded self' = false
  end.
Proof.
  unfold load_model, try_except.
  destruct (load_model_body w path self) as [[e|[]] self1] eqn:H; [reflexivity|].
  revert H. unfold load_model_body, load_weights. unfold_py.
  case_oracles; intros H; inversion H; reflexivity.
Qed.

(** ** What a load replaces *)

(** C3, as stated, fails: a load whose tokenizer step succeeds and whose
    model step raises has already replaced the tokenizer, while model and
    identifier are the old ones. *)
Lemma C3_counterexample_partial_replacement :
  load_model adapter_world (Some "broken/model") manager_A
    = (inl (PyError "OSError" "no file named pytorch_model.bin"),
       mkModelManager (Some (AutoModelForCausalLM "A"))
                      (Some (padded (simple_tokenizer (Some "broken/model"))))
                      (Some "A") false) /\
  tokenizer (snd (load_model adapter_world (Some "broken/model") manager_A))
    <> tokenizer manager_A.
Proof.
  split; [reflexivity|].
  cbv. intros H. inversion H.
Qed.

(** C3, amended. A load that returns has replaced tokenizer, model and
    identifier together, all from the one selected path, and set the flag.
    A load that raises leaves model and identifier as they were and clears
    the flag.  Its tokenizer is the old one when the imports or the
    tokenizer load raised, and then the exception is theirs; it is already
    the tokenizer of the new path when the tokenizer load returned and a
    later step (the marker test or the model load) raised. *)
Theorem C3_load_replacement (w : World) (path : option string) (self : ModelManager) :
  match load_model w path self with
  | (inr _, self') =>
      exists p, determine_model_path w path = Some p /\ loaded_from w p self'
  | (inl e, self') =>
      model self' = model self /\
      model_name self' = model_name self /\
      is_loaded self' = false /\
      match import_ml_stack w,
            AutoTokenizer_from_pretrained w (determine_model_path w path) with
      | Some e0, _ => e = e0 /\ tokenizer self' = tokenizer self
      | None, inl e0 => e = e0 /\ tokenizer self' = tokenizer self
      | None, inr tok =>
          tokenizer self' = Some (padded tok) /\
          fst (load_weights w (determine_model_path w path)
                 (mkModelManager (model self) (Some (padded tok))
                                 (model_name self) (is_loaded self)))
            = inl e
      end
  end.
Proof.
  unfold load_model, load_model_body, loaded_from, padded.
  unfold_py.
  destruct (import_ml_stack w) as [e0|]; [cbn; auto|].
  destruct (AutoTokenizer_from_pretrained w (determine_model_path w path))
    as [e0|tok] eqn:Ht; [cbn; auto|].
  unfold load_weights. unfold_py.
  destruct (determine_model_path w path) as [p|] eqn:Hp.
  2:{ destruct (pad_token tok) eqn:Hpad; cbn; repeat split. }
  destruct (pad_token tok) eqn:Hpad; cbn;
    case_oracles; cbn;
    try (repeat split; reflexivity);
    (exists p; split; [reflexivity|];
     eexists tok, _; rewrite Hpad;
     repeat split; auto).
Qed.

(** ** The endpoints over the global manager *)

Lemma get_model_manager_run w app :
  get_model_manager w app = (inr tt, with_manager app (ensure_manager w app)).
Proof.
  unfold get_model_manager, ensure_manager, with_manager, on_manager.
  unfold_py. destruct app as [[self|] st q r]; cbn; [reflexivity|].
  destruct (load_model w None ModelManager_init) as [[e|[]] self']; reflexivity.
Qed.

Lemma on_manager_run {A} (c : Py ModelManager A) app self :
  on_manager c (with_manager app self)
    = (fst (c self), with_manager app (snd (c self))).
Proof.
  unfold on_manager, with_manager. cbn. destruct (c self); reflexivity.
Qed.

Lemma model_status_run w app :
  model_status w app
    = (inr (model_status_handler w (ensure_manager w app)),
       with_manager app (ensure_manager w app)).
Proof.
  unfold model_status.
  rewrite (bind_inr _ _ _ _ _ (get_model_manager_run w app)).
  rewrite on_manager_run. reflexivity.
Qed.

Lemma load_model_endpoint_run w path app :
  load_model_endpoint w path app
    = match load_model w path (ensure_manager w app) with
      | (inr _, self') =>
          (inr (mkMessage "success"
                  ("Model loaded from " ++ describe (model_name self'))%string),
           with_manager app self')
      | (inl e, self') =>
          (inl (HTTPException 500 (str_exn w e)), with_manager app self')
      end.
Proof.
  unfold load_model_endpoint.
  rewrite (bind_inr _ _ _ _ _ (get_model_manager_run w app)).
  rewrite on_manager_run. unfold_py.
  destruct (load_model w path (ensure_manager w app)) as [[e|[]] self']; reflexivity.
Qed.

(** ** First status query *)

(** C7, as stated, fails: the first status query itself creates the manager
    and attempts the default load; where that load succeeds, the query that
    no load attempt preceded reports a loaded model. *)
Lemma C7_counterexample_first_query_loaded :
  fst (model_status online_world App_init)
    = inr (mkModelStatus true (Some "microsoft/DialoGPT-medium")
                         (Some "GPT2LMHeadModel")).
Proof. reflexivity. Qed.

(** C7, amended. A newly constructed manager is not loaded.  A status query
    that finds no manager creates one and attempts the default load, and
    reports [is_loaded] true exactly when that load returned, false exactly
    when it raised. *)
Theorem C7_model_status_first_query (w : World) (app : App) :
  model_manager app = None ->
  is_loaded ModelManager_init = false /\
  ms_is_loaded (model_status_handler w ModelManager_init) = false /\
  exists ms app',
    model_status w app = (inr ms, app') /\
    model_manager app' = Some (snd (load_model w None ModelManager_init)) /\
    (ms_is_loaded ms = true <->
       exists self', load_model w None ModelManager_init = (inr tt, self')) /\
    (ms_is_loaded ms = false <->
       exists e self', load_model w None ModelManager_init = (inl e, self')).
Proof.
  intros Hnone. split; [reflexivity|]. split; [reflexivity|].
  rewrite model_status_run. unfold ensure_manager. rewrite Hnone.
  eexists _, _. split; [reflexivity|]. split; [reflexivity|].
  cbn [model_status_handler ms_is_loaded].
  pose proof (load_model_outcome w None ModelManager_init) as Hout.
  destruct (load_model w None ModelManager_init) as [[e|[]] self'];
    cbn [snd]; rewrite Hout; split; split; intros H;
    try discriminate; try reflexivity.
  - destruct H as [s H]. discriminate.
  - eauto.
  - eauto.
  - destruct H as [e [s H]]. discriminate.
Qed.

Lemma C7_model_status_first_query_witness :
  is_loaded ModelManager_init = false /\
  ms_is_loaded (model_status_handler offline_world ModelManager_init) = false /\
  exists ms app',
    model_status offline_world App_init = (inr ms, app') /\
    model_manager app' = Some (snd (load_model offline_world None ModelManager_init)) /\
    (ms_is_loaded ms = true <->
       exists self', load_model offline_world None ModelManager_init = (inr tt, self')) /\
    (ms_is_loaded ms = false <->
       exists e self', load_model offline_world None ModelManager_init = (inl e, self')).
Proof.
  apply (C7_model_status_first_query offline_world App_init).
  reflexivity.
Defined.

(** ** Adapter directories and standalone models *)

Lemma load_model_adapter w p tok self :
  import_ml_stack w = None ->
  AutoTokenizer_from_pretrained w (Some p) = inr tok ->
  has_adapter_marker w p ->
  causal_lm_fails w base_model_name = None ->
  peft_fails w (AutoModelForCausalLM base_model_name) p = None ->
  load_model w (Some p) self
    = (inr tt,
       mkModelManager (Some (PeftModel (AutoModelForCausalLM base_model_name) p))
                      (Some (padded tok)) (Some p) true).
Proof.
  intros Hi Ht [He [files [Hl Hin]]] Hb Hp.
  unfold load_model, load_model_body, load_weights, padded. unfold_py.
  rewrite Hi. cbn [determine_model_path]. rewrite Ht, He, Hl, Hin, Hb, Hp.
  destruct (pad_token tok); reflexivity.
Qed.

Lemma load_model_standalone w p tok self :
  import_ml_stack w = None ->
  AutoTokenizer_from_pretrained w (Some p) = inr tok ->
  lacks_adapter_marker w p ->
  causal_lm_fails w p = None ->
  load_model w (Some p) self
    = (inr tt,
       mkModelManager (Some (AutoModelForCausalLM p))
                      (Some (padded tok)) (Some p) true).
Proof.
  intros Hi Ht Hlack Hm.
  unfold load_model, load_model_body, load_weights, padded. unfold_py.
  rewrite Hi. cbn [determine_model_path]. rewrite Ht.
  destruct Hlack as [He | [files [Hl Hin]]].
  - rewrite He, Hm. destruct (pad_token tok); reflexivity.
  - destruct (path_exists w p).
    + rewrite Hl, Hin, Hm. destruct (pad_token tok); reflexivity.
    + rewrite Hm. destruct (pad_token tok); reflexivity.
Qed.

Lemma load_yields_intro w p app m t :
  load_model w (Some p) (ensure_manager w app)
    = (inr tt, mkModelManager (Some m) t (Some p) true) ->
  load_yields w p app m.
Proof.
  intros H. unfold load_yields.
  eexists _, _, _. rewrite load_model_endpoint_run, H.
  split; [reflexivity|]. split; [reflexivity|]. split; [reflexivity|].
  intros w'. rewrite model_status_run. reflexivity.
Qed.

(** C4. Loading a directory that holds the adapter marker composes the fixed
    base model with the adapter, and the status reported afterwards is
    loaded, under the adapter directory's path; loading a path without the
    marker loads that identifier itself as the model.  (Given that the
    library calls of the load succeed.) *)
Theorem C4_adapter_or_standalone
    (w : World) (p : string) (tok : Tokenizer) (app : App) :
  import_ml_stack w = None ->
  AutoTokenizer_from_pretrained w (Some p) = inr tok ->
  (has_adapter_marker w p ->
   causal_lm_fails w base_model_name = None ->
   peft_fails w (AutoModelForCausalLM base_model_name) p = None ->
   load_yields w p app (PeftModel (AutoModelForCausalLM base_model_name) p)) /\
  (lacks_adapter_marker w p ->
   causal_lm_fails w p = None ->
   load_yields w p app (AutoModelForCausalLM p)).
Proof.
  intros Hi Ht. split.
  - intros Hmark Hb Hp.
    eapply load_yields_intro, load_model_adapter; eassumption.
  - intros Hlack Hm.
    eapply load_yields_intro, load_model_standalone; eassumption.
Qed.

Lemma C4_adapter_or_standalone_witness :
  load_yields adapter_world "outputs/lora" App_init
    (PeftModel (AutoModelForCausalLM base_model_name) "outputs/lora") /\
  load_yields adapter_world "gpt2" App_init (AutoModelForCausalLM "gpt2").
Proof.
  split.
  - apply (C4_adapter_or_standalone adapter_world "outputs/lora"
             (simple_tokenizer (Some "outputs/lora")) App_init);
      try reflexivity.
    split; [reflexivity|].
    exists ["adapter_config.json"; "adapter_model.bin"]. split; reflexivity.
  - apply (C4_adapter_or_standalone adapter_world "gpt2"
             (simple_tokenizer (Some "gpt2")) App_init);
      try reflexivity.
    left. reflexivity.
Defined.

(** ** Stripping *)

Lemma lstrip_split (s : pystr) :
  exists l, s = l ++ lstrip s /\ forallb py_isspace l = true.
Proof.
  induction s as [|c s IH]; [exists []; split; reflexivity|].
  cbn [lstrip]. destruct (py_isspace c) eqn:Hc.
  - destruct IH as [l [Hs Hl]]. exists (c :: l). split.
    + cbn. rewrite <- Hs. reflexivity.
    + cbn. rewrite Hc, Hl. reflexivity.
  - exists []. split; reflexivity.
Qed.

Lemma lstrip_starts_clean (s : pystr) : starts_clean (lstrip s).
Proof.
  induction s as [|c s IH]; [exact I|].
  cbn [lstrip]. destruct (py_isspace c) eqn:Hc; [exact IH | exact Hc].
Qed.

Lemma forallb_rev {A} (f : A -> bool) (l : list A) :
  forallb f l = true -> forallb f (rev l) = true.
Proof.
  rewrite !forallb_forall. intros H x Hx. apply H, in_rev, Hx.
Qed.

(** [strip] removes a run of white space at each end and nothing else, and
    what is left neither begins nor ends with white space. *)
Lemma strip_spec (s : pystr) :
  (exists l r,
      s = l ++ strip s ++ r /\
      forallb py_isspace l = true /\ forallb py_isspace r = true) /\
  starts_clean (strip s) /\
  starts_clean (rev (strip s)).
Proof.
  unfold strip, rstrip.
  destruct (lstrip_split s) as [l [Hs Hl]].
  destruct (lstrip_split (rev (lstrip s))) as [r [Hr Hr']].
  assert (Ht : lstrip s = rev (lstrip (rev (lstrip s))) ++ rev r).
  { rewrite <- rev_app_distr, <- Hr, rev_involutive. reflexivity. }
  split; [|split].
  - exists l, (rev r). split; [|split].
    + rewrite <- Ht. exact Hs.
    + exact Hl.
    + apply forallb_rev, Hr'.
  - pose proof (lstrip_starts_clean s) as Hc. rewrite Ht in Hc.
    destruct (rev (lstrip (rev (lstrip s)))); [exact I | exact Hc].
  - rewrite rev_involutive. apply lstrip_starts_clean.
Qed.

(** ** Generation *)

Lemma generate_response_reads_only w message max_length sampling self :
  snd (generate_response w message max_length sampling self) = self.
Proof.
  unfold generate_response, generate_response_body. unfold_py.
  case_oracles; reflexivity.
Qed.

(** C8. The text that a successful [generate_response] returns is the
    decoding of the first generated row, without its first [len(message)]
    code points, and stripped: the decoding is that prefix, a run of white
    space, the returned text, and a run of white space, and the returned
    text has no white space at either end. *)
Theorem C8_generated_suffix
    (w : World) (self self' : ModelManager) (message : pystr)
    (max_length : option Z) (sampling : Sampling) (text : pystr) :
  generate_response w message max_length sampling self = (inr text, self') ->
  exists tok m eos extra inputs outputs row decoded,
    tokenizer self = Some tok /\ model self = Some m /\
    eos_token tok = Some eos /\ max_length = Some extra /\
    encode w tok (message ++ eos) = inr inputs /\
    generate w m inputs (Z.of_nat (length inputs) + extra) sampling
             (eos_token_id tok) = inr outputs /\
    nth_error outputs 0 = Some row /\
    decode w tok row = inr decoded /\
    text = strip (slice_from (length message) decoded) /\
    (exists l r,
        decoded = firstn (length message) decoded ++ l ++ text ++ r /\
        forallb py_isspace l = true /\ forallb py_isspace r = true) /\
    starts_clean text /\ starts_clean (rev text) /\
    self' = self.
Proof.
  intros H.
  pose proof (generate_response_reads_only w message max_length sampling self) as Hs.
  rewrite H in Hs. cbn [snd] in Hs. subst self'.
  revert H. unfold generate_response, generate_response_body. unfold_py.
  destruct (is_loaded self); cbn [negb]; [|discriminate].
  destruct (import_torch w); [discriminate|].
  destruct (tokenizer self) as [tok|]; [|discriminate].
  destruct (eos_token tok) as [eos|] eqn:Heos; [|discriminate].
  destruct (encode w tok (message ++ eos)) as [e|inputs] eqn:Henc; [discriminate|].
  destruct (model self) as [m|]; [|discriminate].
  destruct max_length as [extra|]; [|discriminate].
  destruct (generate w m inputs (Z.of_nat (length inputs) + extra) sampling
              (eos_token_id tok)) as [e|outputs] eqn:Hgen; [discriminate|].
  destruct (nth_error outputs 0) as [row|] eqn:Hrow; [|discriminate].
  destruct (decode w tok row) as [e|decoded] eqn:Hdec; [discriminate|].
  intros H. injection H as H. subst text.
  exists tok, m, eos, extra, inputs, outputs, row, decoded.
  destruct (strip_spec (slice_from (length message) decoded))
    as [[l [r [Hsplit [Hl Hr]]]] [Hhead Hlast]].
  repeat (split; [first [reflexivity | assumption]|]).
  split; [|repeat split; assumption].
  exists l, r. split; [|split; assumption].
  rewrite <- Hsplit. unfold slice_from. symmetry. apply firstn_skipn.
Qed.

Lemma C8_generated_suffix_witness :
  exists tok m eos extra inputs outputs row decoded,
    tokenizer online_manager = Some tok /\ model online_manager = Some m /\
    eos_token tok = Some eos /\ Some 100%Z = Some extra /\
    encode online_world tok (pystr_of_string "hi" ++ eos) = inr inputs /\
    generate online_world m inputs (Z.of_nat (length inputs) + extra)
             default_sampling (eos_token_id tok) = inr outputs /\
    nth_error outputs 0 = Some row /\
    decode online_world tok row = inr decoded /\
    pystr_of_string "ok"
      = strip (slice_from (length (pystr_of_string "hi")) decoded) /\
    (exists l r,
        decoded = firstn (length (pystr_of_string "hi")) decoded
                    ++ l ++ pystr_of_string "ok" ++ r /\
        forallb py_isspace l = true /\ forallb py_isspace r = true) /\
    starts_clean (pystr_of_string "ok") /\
    starts_clean (rev (pystr_of_string "ok")) /\
    online_manager = online_manager.
Proof.
  apply (C8_generated_suffix online_world online_manager online_manager
           (pystr_of_string "hi") (Some 100%Z) default_sampling
           (pystr_of_string "ok")).
  vm_compute. reflexivity.
Defined.

(** ** Chat without a model *)

Lemma chat_run w request app :
  chat w request app
    = (fst (chat_handler w request (ensure_manager w app)),
       with_manager app (snd (chat_handler w request (ensure_manager w app)))).
Proof.
  unfold chat.
  rewrite (bind_inr _ _ _ _ _ (get_model_manager_run w app)).
  apply on_manager_run.
Qed.

(** C2. What the code does for a chat request when no load has succeeded:
    [generate_response] raises the 503 exception, the handler of [/chat]
    catches it with every other exception and raises a 500 whose detail is
    the text of the 503; the response has status 500. *)
Theorem C2_chat_unloaded_answers_500
    (w : World) (request : ChatRequest) (app : App) :
  is_loaded (ensure_manager w app) = false ->
  fst (generate_response w (chat_message request) (chat_max_length request)
         (chat_sampling request) (ensure_manager w app))
    = inl (HTTPException 503 "Model not loaded") /\
  fst (chat w request app)
    = inl (HTTPException 500 (str_exn w (HTTPException 503 "Model not loaded"))) /\
  http_status (fst (chat w request app)) = 500%Z.
Proof.
  intros H.
  assert (G : generate_response w (chat_message request) (chat_max_length request)
                (chat_sampling request) (ensure_manager w app)
              = (inl (HTTPException 503 "Model not loaded"), ensure_manager w app)).
  { unfold generate_response. unfold_py. rewrite H. reflexivity. }
  assert (C : fst (chat w request app)
              = inl (HTTPException 500 (str_exn w (HTTPException 503 "Model not loaded")))).
  { rewrite chat_run. cbn [fst]. unfold chat_handler.
    rewrite (try_except_inl _ _ _ _ _ (bind_inl _ _ _ _ _ G)). reflexivity. }
  rewrite G, C. repeat split.
Qed.

Lemma C2_chat_unloaded_answers_500_witness :
  fst (generate_response offline_world (chat_message hello_request)
         (chat_max_length hello_request) (chat_sampling hello_request)
         (ensure_manager offline_world App_init))
    = inl (HTTPException 503 "Model not loaded") /\
  fst (chat offline_world hello_request App_init)
    = inl (HTTPException 500
             (str_exn offline_world (HTTPException 503 "Model not loaded"))) /\
  http_status (fst (chat offline_world hello_request App_init)) = 500%Z.
Proof.
  apply (C2_chat_unloaded_answers_500 offline_world hello_request App_init).
  reflexivity.
Defined.

(** ** Starting a training run *)

Lemma start_training_conflict request app :
  status (training_status app) = "training" ->
  start_training request app
    = (inl (HTTPException 409 "Training already in progress"), app).
Proof.
  intros H. unfold start_training. unfold_py. rewrite H. reflexivity.
Qed.

Lemma start_training_accepted request app :
  String.eqb (status (training_status app)) "training" = false ->
  start_training request app
    = (inr (mkMessage "success" "Training started in background"),
       mkApp (model_manager app) (mkStatus "starting" "Training task queued")
             (queued app ++ [request]) (running app)).
Proof.
  intros H. unfold start_training. unfold_py. rewrite H. reflexivity.
Qed.

(** C1. What the code does for a [POST /train] that arrives while the status
    is [starting]: the guard only tests for [training], so the request is
    answered with success (status 200, not 409) and a second job is queued
    behind the one already waiting. *)
Theorem C1_start_while_starting_accepted
    (request : TrainingRequest) (manager : option ModelManager)
    (text : string) (waiting busy : list TrainingRequest) :
  start_training request (mkApp manager (mkStatus "starting" text) waiting busy)
    = (inr (mkMessage "success" "Training started in background"),
       mkApp manager (mkStatus "starting" "Training task queued")
             (waiting ++ [request]) busy) /\
  http_status (fst (start_training request
                      (mkApp manager (mkStatus "starting" text) waiting busy)))
    = 200%Z.
Proof.
  rewrite start_training_accepted by reflexivity. split; reflexivity.
Qed.

(** ** The status field over a schedule *)

Lemma run_training_split w request app :
  run_training w request app
    = run_training_rest w request (snd (run_training_begin app)).
Proof.
  unfold run_training, run_training_rest, run_training_begin. unfold_py.
  case_oracles; reflexivity.
Qed.

(** C6. What the code does on [double_start]: both starts are accepted, and
    when the second job begins after the first has completed, the status
    goes from [completed] to [training], which is not a transition of the
    state machine. *)
Theorem C6_second_job_leaves_completed :
  statuses double_start App_init
    = ["starting"; "starting"; "training"; "completed"; "training"] /\
  spec_transition "completed" "training" = false /\
  follows_spec "idle" (statuses double_start App_init) = false.
Proof. repeat split. Qed.

(** What one event does to the training state. *)
Lemma step_cases (w : World) (ev : Event) (app : App) :
  let app' := snd (step w ev app) in
  app' = app \/
  (exists r, ev = PostTrain r /\
             status (training_status app) <> "training" /\
             status (training_status app') = "starting" /\
             queued app' = queued app ++ [r] /\ running app' = running app) \/
  (exists i r, ev = JobBegin i /\ nth_error (queued app) i = Some r /\
               status (training_status app') = "training" /\
               queued app' = remove_nth i (queued app) /\
               running app' = running app ++ [r]) \/
  (exists i r, ev = JobEnd i /\ nth_error (running app) i = Some r /\
               (status (training_status app') = "completed" \/
                status (training_status app') = "error") /\
               queued app' = queued app /\
               running app' = remove_nth i (running app)).
Proof.
  destruct ev as [r| |i|i]; cbn [step].
  - destruct (String.eqb (status (training_status app)) "training") eqn:E.
    + apply String.eqb_eq in E. rewrite (start_training_conflict _ _ E). auto.
    + rewrite (start_training_accepted _ _ E). cbn. right; left.
      exists r. apply String.eqb_neq in E. auto.
  - cbn. auto.
  - cbn [snd]. unfold job_begin. destruct (nth_error (queued app) i) as [r|] eqn:E; [|auto].
    right; right; left. exists i, r. cbn. auto.
  - cbn [snd]. unfold job_end.
    destruct (nth_error (running app) i) as [r|] eqn:E; [|auto].
    right; right; right. exists i, r. split; [reflexivity|]. split; [exact E|].
    unfold run_training_rest. unfold_py.
    case_oracles; cbn; auto.
Qed.

(** The status field never holds anything but the five values. *)
Lemma step_status_values w ev app :
  In (status (training_status app)) status_values ->
  In (status (training_status (snd (step w ev app)))) status_values.
Proof.
  intros H. unfold status_values in *.
  destruct (step_cases w ev app)
    as [E | [[r [_ [_ [E _]]]] | [[i [r [_ [_ [E _]]]]] | [i [r [_ [_ [[E|E] _]]]]]]]];
    rewrite E; cbn; auto 6.
Qed.

Lemma statuses_values sched : forall app,
  In (status (training_status app)) status_values ->
  Forall (fun s => In s status_values) (statuses sched app).
Proof.
  induction sched as [|[w ev] rest IH]; intros app H; cbn [statuses];
    constructor.
  - apply step_status_values, H.
  - apply IH, step_status_values, H.
Qed.

(** No event sets the status to [idle]: it is [idle] after an event only if
    it was before. *)
Lemma step_never_back_to_idle w ev app :
  status (training_status (snd (step w ev app))) = "idle" ->
  status (training_status app) = "idle".
Proof.
  destruct (step_cases w ev app)
    as [E | [[r [_ [_ [E _]]]] | [[i [r [_ [_ [E _]]]]] | [i [r [_ [_ [[E|E] _]]]]]]]];
    rewrite E; try discriminate; auto.
Qed.

(** A start from [idle], [completed] or [error] is accepted and sets the
    status to [starting]. *)
Lemma start_restarts_cycle request app :
  In (status (training_status app)) ["idle"; "completed"; "error"] ->
  exists app',
    start_training request app
      = (inr (mkMessage "success" "Training started in background"), app') /\
    training_status app' = mkStatus "starting" "Training task queued".
Proof.
  intros H. eexists. rewrite start_training_accepted; [split; reflexivity|].
  cbn in H. destruct H as [H|[H|[H|[]]]]; rewrite <- H; reflexivity.
Qed.

Lemma remove_nth_singleton {A} (i : nat) (l : list A) (x : A) :
  length l = 1 -> nth_error l i = Some x -> remove_nth i l = [].
Proof.
  destruct l as [|y [|z l]]; try discriminate. intros _.
  destruct i as [|i]; [reflexivity|]. destruct i; discriminate.
Qed.

Lemma one_job_step w ev app :
  one_job app ->
  match ev with
  | PostTrain _ => status (training_status app) <> "starting"
  | _ => True
  end ->
  one_job (snd (step w ev app)) /\
  (String.eqb (status (training_status app))
              (status (training_status (snd (step w ev app))))
   || spec_transition (status (training_status app))
                      (status (training_status (snd (step w ev app))))) = true.
Proof.
  intros Hone Hev.
  destruct (step_cases w ev app)
    as [E | [[r [Eev [Hnt [E [Eq Er]]]]]
          | [[i [r [Eev [Hn [E [Eq Er]]]]]] | [i [r [Eev [Hn [E [Eq Er]]]]]]]]].
  - rewrite E. split; [exact Hone|]. rewrite String.eqb_refl. reflexivity.
  - subst ev.
    destruct Hone as [[Hs _] | [[Hs _] | [Hs [Hq Hr]]]]; [contradiction..|].
    split.
    + left. rewrite E, Eq, Er, Hq, Hr. auto.
    + rewrite E. cbn in Hs. destruct Hs as [H|[H|[H|[]]]]; rewrite <- H; reflexivity.
  - destruct Hone as [[Hs [Hq Hr]] | [[Hs [Hq Hr]] | [Hs [Hq Hr]]]];
      try (rewrite Hq in Hn; destruct i; discriminate).
    split.
    + right; left. rewrite E, Eq, Er, Hr.
      rewrite (remove_nth_singleton _ _ _ Hq Hn). auto.
    + rewrite E, Hs. reflexivity.
  - destruct Hone as [[Hs [Hq Hr]] | [[Hs [Hq Hr]] | [Hs [Hq Hr]]]];
      try (rewrite Hr in Hn; destruct i; discriminate).
    split.
    + right; right. rewrite Eq, Er, Hq.
      rewrite (remove_nth_singleton _ _ _ Hr Hn).
      split; [|auto]. destruct E as [E|E]; rewrite E; cbn; auto.
    + rewrite Hs. destruct E as [E|E]; rewrite E; reflexivity.
Qed.

(** As long as no start arrives while a job is waiting to begin, there is
    never more than one job and every change of the status is a transition
    of the state machine. *)
Lemma single_job_follows_spec sched : forall app,
  one_job app ->
  no_start_while_starting sched app = true ->
  follows_spec (status (training_status app)) (statuses sched app) = true.
Proof.
  induction sched as [|[w ev] rest IH]; intros app Hone Hd; [reflexivity|].
  cbn [no_start_while_starting] in Hd. apply andb_prop in Hd as [Hev Hrest].
  cbn [statuses follows_spec].
  destruct (one_job_step w ev app Hone) as [Hone' Hstep].
  - destruct ev; try exact I.
    apply negb_true_iff, String.eqb_neq in Hev. exact Hev.
  - rewrite Hstep. cbn [andb]. apply IH; assumption.
Qed.

(** ** Requests that differ in the unused fields *)

Lemma same_config_refl r : same_config r r.
Proof. reflexivity. Qed.

Lemma Forall2_same_config_refl l : Forall2 same_config l l.
Proof. induction l; constructor; auto using same_config_refl. Qed.

Lemma app_sim_refl a : app_sim a a.
Proof. repeat split; apply Forall2_same_config_refl. Qed.

Lemma sched_sim_refl s : sched_sim s s.
Proof. induction s; constructor; auto using sim_same. Qed.

Create HintDb sim.
#[local] Hint Resolve same_config_refl Forall2_same_config_refl app_sim_refl
  sched_sim_refl : sim.
#[local] Hint Constructors event_sim Forall2 : sim.

Lemma Forall2_nth_error {A} (R : A -> A -> Prop) l1 l2 :
  Forall2 R l1 l2 ->
  forall i,
    match nth_error l1 i, nth_error l2 i with
    | Some x, Some y => R x y
    | None, None => True
    | _, _ => False
    end.
Proof.
  induction 1 as [|x y l1 l2 Hxy _ IH]; intros [|i]; cbn; auto.
  apply IH.
Qed.

Lemma Forall2_remove_nth {A} (R : A -> A -> Prop) l1 l2 :
  Forall2 R l1 l2 -> forall i, Forall2 R (remove_nth i l1) (remove_nth i l2).
Proof.
  unfold remove_nth.
  induction 1 as [|x y l1 l2 Hxy H IH]; intros [|i]; cbn.
  - constructor.
  - constructor.
  - exact H.
  - constructor; [exact Hxy | apply IH].
Qed.

Lemma run_training_rest_same_config w r1 r2 app :
  same_config r1 r2 -> run_training_rest w r1 app = run_training_rest w r2 app.
Proof. unfold same_config, run_training_rest. intros ->. reflexivity. Qed.

(** The outcome of the rest of a job depends on the training state alone. *)
Lemma run_training_rest_sim w r a b :
  app_sim a b ->
  app_sim (snd (run_training_rest w r a)) (snd (run_training_rest w r b)).
Proof.
  intros [Hm [Hs [Hq Hr]]].
  unfold run_training_rest. unfold_py.
  case_oracles; cbn; repeat split; assumption.
Qed.

Lemma start_training_sim r1 r2 a b :
  same_config r1 r2 -> app_sim a b ->
  fst (start_training r1 a) = fst (start_training r2 b) /\
  app_sim (snd (start_training r1 a)) (snd (start_training r2 b)).
Proof.
  intros H12 Hab. pose proof Hab as [Hm [Hs [Hq Hr]]].
  unfold start_training. unfold_py. rewrite Hs.
  destruct (String.eqb (status (training_status b)) "training"); cbn.
  - split; [reflexivity | exact Hab].
  - split; [reflexivity|]. repeat split; auto.
    apply Forall2_app; auto.
Qed.

Lemma step_sim w e1 e2 a b :
  event_sim e1 e2 -> app_sim a b ->
  fst (step w e1 a) = fst (step w e2 b) /\
  app_sim (snd (step w e1 a)) (snd (step w e2 b)).
Proof.
  intros He Hab. pose proof Hab as [Hm [Hs [Hq Hr]]].
  assert (Hpost : forall r1 r2, same_config r1 r2 ->
            fst (step w (PostTrain r1) a) = fst (step w (PostTrain r2) b) /\
            app_sim (snd (step w (PostTrain r1) a)) (snd (step w (PostTrain r2) b))).
  { intros r1 r2 H12. cbn [step].
    destruct (start_training_sim r1 r2 a b H12 Hab) as [Ho Hsim].
    destruct (start_training r1 a) as [o1 a1], (start_training r2 b) as [o2 b1].
    cbn [fst snd] in *. subst o2. split; [reflexivity | exact Hsim]. }
  destruct He as [r1 r2 H12 | ev]; [apply Hpost, H12|].
  destruct ev as [r| |i|i].
  - apply Hpost, same_config_refl.
  - cbn. rewrite Hs. split; [reflexivity | exact Hab].
  - cbn [step fst snd]. split; [reflexivity|]. unfold job_begin.
    pose proof (Forall2_nth_error _ _ _ Hq i) as Hi.
    destruct (nth_error (queued a) i) as [x|], (nth_error (queued b) i) as [y|];
      try contradiction; [|exact Hab].
    cbn. repeat split; auto.
    + apply Forall2_remove_nth, Hq.
    + apply Forall2_app; auto.
  - cbn [step fst snd]. split; [reflexivity|]. unfold job_end.
    pose proof (Forall2_nth_error _ _ _ Hr i) as Hi.
    destruct (nth_error (running a) i) as [x|], (nth_error (running b) i) as [y|];
      try contradiction; [|exact Hab].
    rewrite (run_training_rest_same_config w x y _ Hi).
    apply run_training_rest_sim. repeat split; auto.
    apply Forall2_remove_nth, Hr.
Qed.

Lemma run_sim s1 s2 :
  sched_sim s1 s2 ->
  forall a b, app_sim a b ->
    fst (run s1 a) = fst (run s2 b) /\ app_sim (snd (run s1 a)) (snd (run s2 b)).
Proof.
  induction 1 as [|[w1 e1] [w2 e2] s1 s2 [Hw He] _ IH]; intros a b Hab.
  - split; [reflexivity | exact Hab].
  - cbn in Hw. subst w2. cbn [run]. cbn [snd] in He.
    destruct (step_sim w1 e1 e2 a b He Hab) as [Ho Hs].
    destruct (step w1 e1 a) as [o1 a1], (step w1 e2 b) as [o2 b1].
    cbn [fst snd] in Ho, Hs. subst o2.
    destruct (IH a1 b1 Hs) as [Hos Hs'].
    destruct (run s1 a1) as [os1 a2], (run s2 b1) as [os2 b2].
    cbn [fst snd] in *. subst os2. split; [reflexivity | exact Hs'].
Qed.

(** C9. Two [POST /train] requests with the same [config_path] are not told
    apart by the code, whatever their [dataset_path] and [output_dir]: the
    endpoint answers alike, the job hands the same configuration path to the
    training entry point and has the same effect, and in any schedule of
    requests and jobs, replacing one request by the other changes no reply
    and no status. *)
Theorem C9_train_reads_config_path_only (r1 r2 : TrainingRequest) :
  config_path r1 = config_path r2 ->
  or_default (config_path r1) default_config_path
    = or_default (config_path r2) default_config_path /\
  (forall w app, run_training w r1 app = run_training w r2 app) /\
  (forall app,
      fst (start_training r1 app) = fst (start_training r2 app) /\
      app_sim (snd (start_training r1 app)) (snd (start_training r2 app))) /\
  (forall w before after app,
      fst (run (before ++ (w, PostTrain r1) :: after) app)
        = fst (run (before ++ (w, PostTrain r2) :: after) app) /\
      app_sim (snd (run (before ++ (w, PostTrain r1) :: after) app))
              (snd (run (before ++ (w, PostTrain r2) :: after) app))).
Proof.
  intros H. split; [rewrite H; reflexivity|]. split; [|split].
  - intros w app. rewrite !run_training_split.
    apply run_training_rest_same_config, H.
  - intros app. apply start_training_sim; auto with sim.
  - intros w before after app. apply run_sim; [|auto with sim].
    apply Forall2_app; [apply sched_sim_refl|].
    constructor; [|apply sched_sim_refl].
    split; [reflexivity | apply sim_post, H].
Qed.

Lemma C9_train_reads_config_path_only_witness :
  or_default (config_path request_a) default_config_path
    = or_default (config_path request_b) default_config_path /\
  (forall w app, run_training w request_a app = run_training w request_b app) /\
  (forall app,
      fst (start_training request_a app) = fst (start_training request_b app) /\
      app_sim (snd (start_training request_a app))
              (snd (start_training request_b app))) /\
  (forall w before after app,
      fst (run (before ++ (w, PostTrain request_a) :: after) app)
        = fst (run (before ++ (w, PostTrain request_b) :: after) app) /\
      app_sim (snd (run (before ++ (w, PostTrain request_a) :: after) app))
              (snd (run (before ++ (w, PostTrain request_b) :: after) app))).
Proof.
  apply (C9_train_reads_config_path_only request_a request_b).
  reflexivity.
Defined.

(** * Further properties of the code *)

(** ** The manager over any sequence of calls *)

Lemma load_model_well_loaded w path self :
  well_loaded (snd (load_model w path self)).
Proof.
  unfold well_loaded, load_model, load_model_body, load_weights. unfold_py.
  destruct (import_ml_stack w); [cbn; discriminate|].
  destruct (AutoTokenizer_from_pretrained w (determine_model_path w path))
    as [e|tok]; [cbn; discriminate|].
  destruct (determine_model_path w path) as [p|];
    destruct (pad_token tok) eqn:Hpad; cbn; try discriminate;
    case_oracles; cbn; try discriminate; intros _;
    eexists _, _; (split; [reflexivity|]); (split; [auto|]);
    (split; [reflexivity|]); cbn; congruence.
Qed.

Lemma ensure_manager_well_loaded w app :
  manager_ok app -> well_loaded (ensure_manager w app).
Proof.
  unfold manager_ok, ensure_manager.
  destruct (model_manager app); [auto|]. intros _. apply load_model_well_loaded.
Qed.

Lemma chat_handler_reads_only w request self :
  snd (chat_handler w request self) = self.
Proof.
  unfold chat_handler, try_except, bind.
  pose proof (generate_response_reads_only w (chat_message request)
                (chat_max_length request) (chat_sampling request) self) as H.
  destruct (generate_response w (chat_message request) (chat_max_length request)
              (chat_sampling request) self) as [[e|text] self'];
    cbn in H; subst self'; reflexivity.
Qed.

(** No event of the training coordinator touches the manager. *)
Lemma step_keeps_manager w ev app :
  model_manager (snd (step w ev app)) = model_manager app.
Proof.
  destruct ev as [r| |i|i]; cbn [step].
  - destruct (String.eqb (status (training_status app)) "training") eqn:E.
    + apply String.eqb_eq in E. rewrite (start_training_conflict _ _ E). reflexivity.
    + rewrite (start_training_accepted _ _ E). reflexivity.
  - reflexivity.
  - cbn [snd]. unfold job_begin. destruct (nth_error (queued app) i); reflexivity.
  - cbn [snd]. unfold job_end. destruct (nth_error (running app) i); [|reflexivity].
    unfold run_training_rest. unfold_py. case_oracles; reflexivity.
Qed.

Lemma serve_state w c app :
  snd (serve w c app)
    = match c with
      | PostChat _ | GetModelStatus => with_manager app (ensure_manager w app)
      | PostLoadModel model_path =>
          with_manager app (snd (load_model w model_path (ensure_manager w app)))
      | Training ev => snd (step w ev app)
      end.
Proof.
  destruct c as [request|model_path| |ev]; cbn [serve].
  - rewrite chat_run, chat_handler_reads_only. reflexivity.
  - rewrite load_model_endpoint_run.
    destruct (load_model w model_path (ensure_manager w app)) as [[e|[]] self'];
      reflexivity.
  - rewrite model_status_run. reflexivity.
  - destruct (step w ev app). reflexivity.
Qed.

Lemma serve_manager_ok w c app :
  manager_ok app -> manager_ok (snd (serve w c app)).
Proof.
  intros H. rewrite serve_state. destruct c as [request|model_path| |ev].
  - apply (ensure_manager_well_loaded w app H).
  - apply load_model_well_loaded.
  - apply (ensure_manager_well_loaded w app H).
  - unfold manager_ok. rewrite step_keeps_manager. exact H.
Qed.

(** X1. In every state the process can reach, whatever the order of chat,
    load, status and training calls and whatever the loads met, a manager
    whose [is_loaded] flag is set holds a model, a tokenizer and the name
    the model was loaded under. *)
Theorem loaded_flag_implies_populated (calls : list (World * Call)) :
  manager_ok (snd (serve_all calls App_init)).
Proof.
  assert (G : forall app, manager_ok app -> manager_ok (snd (serve_all calls app))).
  { induction calls as [|[w c] rest IH]; intros app H; [exact H|].
    cbn [serve_all].
    pose proof (serve_manager_ok w c app H) as H1.
    destruct (serve w c app) as [code app1]. cbn [snd] in H1.
    specialize (IH app1 H1).
    destruct (serve_all rest app1) as [codes app2]. exact IH. }
  apply G. exact I.
Qed.

(** X2. The two halves of the process state are independent: a chat, load
    or status request never changes the training status or the jobs, and no
    training event changes the manager. *)
Theorem model_and_training_state_independent (w : World) (c : Call) (app : App) :
  match c with
  | Training _ => model_manager (snd (serve w c app)) = model_manager app
  | _ =>
      training_status (snd (serve w c app)) = training_status app /\
      queued (snd (serve w c app)) = queued app /\
      running (snd (serve w c app)) = running app
  end.
Proof.
  rewrite serve_state. destruct c; cbn; auto using step_keeps_manager.
Qed.

(** ** Chat and generation *)

Lemma or_default_nonempty x default :
  default <> "" -> or_default x default <> "".
Proof.
  intros H. unfold or_default. destruct x as [s|]; [|exact H].
  destruct (String.eqb s "") eqn:E; [exact H|].
  apply String.eqb_neq, E.
Qed.

Lemma generate_response_unloaded w message max_length sampling self :
  is_loaded self = false ->
  generate_response w message max_length sampling self
    = (inl (HTTPException 503 "Model not loaded"), self).
Proof.
  intros H. unfold generate_response. unfold_py. rewrite H. reflexivity.
Qed.

Lemma generate_response_loaded w message max_length sampling self :
  is_loaded self = true ->
  generate_response w message max_length sampling self
    = match generate_response_body w message max_length sampling self with
      | (inr text, _) => (inr text, self)
      | (inl e, _) =>
          (inl (HTTPException 500 ("Generation error: " ++ str_exn w e)%string), self)
      end.
Proof.
  intros H.
  pose proof (generate_response_reads_only w message max_length sampling self) as R.
  revert R. unfold generate_response. unfold_py. rewrite H. cbn [negb].
  destruct (generate_response_body w message max_length sampling self)
    as [[e|text] self']; cbn; intros ->; reflexivity.
Qed.

(** X3. [generate_response] raises nothing but HTTP exceptions: the 503
    exactly when the flag is not set, and otherwise a 500 whose detail is
    "Generation error: " followed by the text of the exception that the
    tokenizer, the model or the arithmetic on [max_length] raised. *)
Theorem generate_response_raises_http_only
    (w : World) (message : pystr) (max_length : option Z) (sampling : Sampling)
    (self self' : ModelManager) (e : Exn) :
  generate_response w message max_length sampling self = (inl e, self') ->
  (is_loaded self = false /\ e = HTTPException 503 "Model not loaded") \/
  (is_loaded self = true /\
   exists cause,
     fst (generate_response_body w message max_length sampling self) = inl cause /\
     e = HTTPException 500 ("Generation error: " ++ str_exn w cause)%string).
Proof.
  destruct (is_loaded self) eqn:L.
  - rewrite (generate_response_loaded _ _ _ _ _ L).
    destruct (generate_response_body w message max_length sampling self)
      as [[cause|text] s]; intros H; inversion H.
    right. split; [reflexivity|]. exists cause. split; reflexivity.
  - rewrite (generate_response_unloaded _ _ _ _ _ L). intros H. inversion H.
    left. split; reflexivity.
Qed.

Lemma generate_response_raises_http_only_witness :
  (is_loaded online_manager = false /\
   HTTPException 500
     "Generation error: unsupported operand type(s) for +: 'int' and 'NoneType'"
     = HTTPException 503 "Model not loaded") \/
  (is_loaded online_manager = true /\
   exists cause,
     fst (generate_response_body online_world (pystr_of_string "hello") None
            default_sampling online_manager) = inl cause /\
     HTTPException 500
       "Generation error: unsupported operand type(s) for +: 'int' and 'NoneType'"
       = HTTPException 500 ("Generation error: " ++ str_exn online_world cause)%string).
Proof.
  apply (generate_response_raises_http_only online_world (pystr_of_string "hello")
           None default_sampling online_manager online_manager).
  reflexivity.
Defined.

(** X4. [POST /chat] answers 200 or 500 and nothing else; it leaves the
    training state alone and the manager as [get_model_manager] provides it;
    and a 200 comes only from a loaded manager and never carries an empty
    model name. *)
Theorem chat_answers_200_or_500 (w : World) (request : ChatRequest) (app : App) :
  (http_status (fst (chat w request app)) = 200%Z \/
   http_status (fst (chat w request app)) = 500%Z) /\
  snd (chat w request app) = with_manager app (ensure_manager w app) /\
  forall reply,
    fst (chat w request app) = inr reply ->
    is_loaded (ensure_manager w app) = true /\
    response_model_name reply <> "".
Proof.
  rewrite chat_run, chat_handler_reads_only. cbn [fst snd].
  unfold chat_handler, try_except, bind.
  destruct (is_loaded (ensure_manager w app)) eqn:L.
  - rewrite (generate_response_loaded _ _ _ _ _ L).
    destruct (generate_response_body w (chat_message request)
                (chat_max_length request) (chat_sampling request)
                (ensure_manager w app)) as [[cause|text] s]; cbn.
    + split; [right; reflexivity|]. split; [reflexivity|]. discriminate.
    + split; [left; reflexivity|]. split; [reflexivity|].
      intros reply H. injection H as <-. split; [reflexivity|].
      cbn. apply or_default_nonempty. discriminate.
  - rewrite (generate_response_unloaded _ _ _ _ _ L). cbn.
    split; [right; reflexivity|]. split; [reflexivity|]. discriminate.
Qed.

(** X5. A load that fails takes the manager out of service, even one that
    was serving a model and still holds it: until a later load succeeds,
    [generate_response] raises the 503 and [/chat] answers 500. *)
Theorem failed_reload_disables_chat
    (w w' : World) (path : option string) (self self' : ModelManager) (e : Exn)
    (request : ChatRequest) :
  load_model w path self = (inl e, self') ->
  model self' = model self /\
  fst (generate_response w' (chat_message request) (chat_max_length request)
         (chat_sampling request) self')
    = inl (HTTPException 503 "Model not loaded") /\
  http_status (fst (chat_handler w' request self')) = 500%Z.
Proof.
  intros H.
  pose proof (load_model_outcome w path self) as L. rewrite H in L.
  assert (M : model self' = model self).
  { revert H. unfold load_model, load_model_body, load_weights. unfold_py.
    case_oracles; intros H; inversion H; reflexivity. }
  split; [exact M|].
  unfold chat_handler, try_except, bind.
  rewrite (generate_response_unloaded _ _ _ _ _ L). split; reflexivity.
Qed.

Lemma failed_reload_disables_chat_witness :
  model (mkModelManager (Some (AutoModelForCausalLM "A"))
           (Some (padded (simple_tokenizer (Some "broken/model"))))
           (Some "A") false)
    = model manager_A /\
  fst (generate_response online_world (chat_message hello_request)
         (chat_max_length hello_request) (chat_sampling hello_request)
         (mkModelManager (Some (AutoModelForCausalLM "A"))
            (Some (padded (simple_tokenizer (Some "broken/model"))))
            (Some "A") false))
    = inl (HTTPException 503 "Model not loaded") /\
  http_status
    (fst (chat_handler online_world hello_request
            (mkModelManager (Some (AutoModelForCausalLM "A"))
               (Some (padded (simple_tokenizer (Some "broken/model"))))
               (Some "A") false))) = 500%Z.
Proof.
  apply (failed_reload_disables_chat adapter_world online_world
           (Some "broken/model") manager_A _
           (PyError "OSError" "no file named pytorch_model.bin") hello_request).
  reflexivity.
Defined.

(** ** The lazily created manager *)

Lemma ensure_manager_with_manager w app self :
  ensure_manager w (with_manager app self) = self.
Proof. reflexivity. Qed.

Lemma with_manager_twice app self self' :
  with_manager (with_manager app self) self' = with_manager app self'.
Proof. reflexivity. Qed.

(** X6. The default load is attempted once, by the first request that needs
    the manager.  If it fails, no later chat or status request tries again,
    whatever has become available since: the status stays not loaded and
    chat answers 500 until an explicit load succeeds. *)
Theorem default_load_not_retried
    (w1 w2 : World) (request : ChatRequest) (app : App)
    (e : Exn) (self' : ModelManager) :
  model_manager app = None ->
  load_model w1 None ModelManager_init = (inl e, self') ->
  let app1 := snd (model_status w1 app) in
  model_status w2 app1
    = (inr (mkModelStatus false (model_name self')
              (option_map (class_name w2) (model self'))), app1) /\
  get_model_manager w2 app1 = (inr tt, app1) /\
  http_status (fst (chat w2 request app1)) = 500%Z /\
  snd (chat w2 request app1) = app1.
Proof.
  intros Hnone Hload app1.
  pose proof (load_model_outcome w1 None ModelManager_init) as L.
  rewrite Hload in L.
  assert (E : app1 = with_manager app self').
  { unfold app1. rewrite model_status_run. cbn [snd].
    unfold ensure_manager. rewrite Hnone, Hload. reflexivity. }
  rewrite E.
  rewrite model_status_run, get_model_manager_run, chat_run, chat_handler_reads_only.
  rewrite ensure_manager_with_manager, with_manager_twice.
  unfold model_status_handler. rewrite L. cbn [fst snd].
  repeat split.
  unfold chat_handler, try_except, bind.
  rewrite (generate_response_unloaded _ _ _ _ _ L). reflexivity.
Qed.

Lemma default_load_not_retried_witness :
  let app1 := snd (model_status offline_world App_init) in
  model_status online_world app1
    = (inr (mkModelStatus false (model_name ModelManager_init)
              (option_map (class_name online_world) (model ModelManager_init))),
       app1) /\
  get_model_manager online_world app1 = (inr tt, app1) /\
  http_status (fst (chat online_world hello_request app1)) = 500%Z /\
  snd (chat online_world hello_request app1) = app1.
Proof.
  apply (default_load_not_retried offline_world online_world hello_request App_init
           (PyError "OSError" "cannot reach the model hub") ModelManager_init);
    reflexivity.
Defined.

(** X7. [POST /load_model] answers 200 when the load returns and 500 when it
    raises, the 500 carrying the text of the exception.  The status reported
    afterwards agrees with the answer: loaded exactly after a 200, and then
    under the name that the success message gives. *)
Theorem load_endpoint_then_status
    (w w' : World) (path : option string) (app : App) :
  let r := fst (load_model_endpoint w path app) in
  let app1 := snd (load_model_endpoint w path app) in
  exists ms,
    fst (model_status w' app1) = inr ms /\
    (http_status r = 200%Z \/ http_status r = 500%Z) /\
    (ms_is_loaded ms = true <-> http_status r = 200%Z) /\
    (forall msg, r = inr msg ->
       exists p, ms_model_name ms = Some p /\
                 msg_text msg = ("Model loaded from " ++ p)%string) /\
    (forall err, r = inl err ->
       exists cause,
         fst (load_model w path (ensure_manager w app)) = inl cause /\
         err = HTTPException 500 (str_exn w cause)).
Proof.
  intros r app1. subst r app1.
  rewrite load_model_endpoint_run.
  pose proof (load_model_outcome w path (ensure_manager w app)) as L.
  pose proof (load_model_well_loaded w path (ensure_manager w app)) as W.
  destruct (load_model w path (ensure_manager w app)) as [[cause|[]] self'];
    cbn [fst snd] in *; rewrite model_status_run;
    rewrite ensure_manager_with_manager; cbn [fst];
    eexists; (split; [reflexivity|]); unfold model_status_handler;
    cbn [ms_is_loaded ms_model_name http_status]; rewrite L.
  - split; [right; reflexivity|]. split; [split; discriminate|].
    split; [discriminate|]. intros err H. injection H as <-.
    exists cause. split; reflexivity.
  - split; [left; reflexivity|]. split; [split; reflexivity|].
    split; [|discriminate]. intros msg H. injection H as <-.
    destruct (W L) as [p [tok [Hn _]]]. exists p. rewrite Hn. split; reflexivity.
Qed.

(** ** Generation that adds nothing *)

Lemma lstrip_all_space (s : pystr) :
  forallb py_isspace s = true -> lstrip s = [].
Proof.
  induction s as [|c s IH]; [reflexivity|]. cbn.
  destruct (py_isspace c); [exact IH | discriminate].
Qed.

Lemma strip_empty_iff (s : pystr) :
  strip s = [] <-> forallb py_isspace s = true.
Proof.
  split.
  - intros H. destruct (strip_spec s) as [[l [r [Hs [Hl Hr]]]] _].
    rewrite Hs, H. cbn. rewrite forallb_app, Hl, Hr. reflexivity.
  - intros H. unfold strip, rstrip. rewrite (lstrip_all_space _ H). reflexivity.
Qed.

Lemma generate_response_returns w message max_length sampling self text self' :
  generate_response w message max_length sampling self = (inr text, self') ->
  exists tok row decoded,
    tokenizer self = Some tok /\
    decode w tok row = inr decoded /\
    text = strip (slice_from (length message) decoded).
Proof.
  unfold generate_response, generate_response_body. unfold_py.
  destruct (is_loaded self); cbn [negb]; [|discriminate].
  destruct (import_torch w); [discriminate|].
  destruct (tokenizer self) as [tok|]; [|discriminate].
  destruct (eos_token tok) as [eos|]; [|discriminate].
  destruct (encode w tok (message ++ eos)) as [e|inputs]; [discriminate|].
  destruct (model self) as [m|]; [|discriminate].
  destruct max_length as [extra|]; [|discriminate].
  destruct (generate w m inputs (Z.of_nat (length inputs) + extra) sampling
              (eos_token_id tok)) as [e|outputs]; [discriminate|].
  destruct (nth_error outputs 0) as [row|]; [|discriminate].
  destruct (decode w tok row) as [e|decoded] eqn:Hdec; [discriminate|].
  intros H. injection H as H _. exists tok, row, decoded. auto.
Qed.

(** X8. A successful generation returns the empty text exactly when the
    decoded row has nothing but white space after its first [len(message)]
    code points, in particular when it is no longer than the prompt; the
    prefix is cut by length and never compared with the prompt. *)
Theorem generation_empty_iff_nothing_after_prompt
    (w : World) (message : pystr) (max_length : option Z) (sampling : Sampling)
    (self self' : ModelManager) (text : pystr) :
  generate_response w message max_length sampling self = (inr text, self') ->
  exists tok row decoded,
    tokenizer self = Some tok /\
    decode w tok row = inr decoded /\
    (text = [] <->
       forallb py_isspace (slice_from (length message) decoded) = true) /\
    (length decoded <= length message -> text = []).
Proof.
  intros H.
  destruct (generate_response_returns _ _ _ _ _ _ _ H)
    as [tok [row [decoded [Ht [Hd Htext]]]]].
  exists tok, row, decoded. split; [exact Ht|]. split; [exact Hd|].
  subst text. split; [apply strip_empty_iff|].
  intros Hlen. apply strip_empty_iff. unfold slice_from.
  rewrite skipn_all2 by exact Hlen. reflexivity.
Qed.

Lemma generation_empty_iff_nothing_after_prompt_witness :
  exists tok row decoded,
    tokenizer online_manager = Some tok /\
    decode echo_world tok row = inr decoded /\
    (@nil N = [] <->
       forallb py_isspace
         (slice_from (length (pystr_of_string "hi")) decoded) = true) /\
    (length decoded <= length (pystr_of_string "hi") -> @nil N = []).
Proof.
  apply (generation_empty_iff_nothing_after_prompt echo_world
           (pystr_of_string "hi") (Some 100%Z) default_sampling
           online_manager online_manager []).
  vm_compute. reflexivity.
Defined.

(** ** The background job *)

Lemma run_training_rest_outcome w request app :
  run_training_rest w request app
    = (inr tt,
       mkApp (model_manager app) (final_record w request) (queued app) (running app)).
Proof.
  unfold run_training_rest, final_record, training_failure. unfold_py.
  destruct (import_train_production w); [reflexivity|].
  destruct (train_main w (or_default (config_path request) default_config_path))
    as [e|[]]; reflexivity.
Qed.

(** X9. The background job never lets an exception escape.  It ends with the
    status [completed] exactly when the import of the training entry point
    and the entry point itself both return, and otherwise with [error] and
    the message "Training failed: " followed by the text of the exception;
    it touches neither the manager nor the job lists. *)
Theorem run_training_never_raises
    (w : World) (request : TrainingRequest) (app : App) :
  run_training w request app
    = (inr tt,
       mkApp (model_manager app) (final_record w request) (queued app) (running app)) /\
  (status (final_record w request) = "completed" <->
     import_train_production w = None /\
     train_main w (or_default (config_path request) default_config_path) = inr tt) /\
  (forall e, training_failure w request = Some e ->
     final_record w request
       = mkStatus "error" ("Training failed: " ++ str_exn w e)%string).
Proof.
  split; [|split].
  - rewrite run_training_split, run_training_rest_outcome. reflexivity.
  - unfold final_record, training_failure.
    destruct (import_train_production w) as [e|]; cbn.
    + split; [discriminate | intros [H _]; discriminate].
    + destruct (train_main w (or_default (config_path request) default_config_path))
        as [e|[]]; cbn; split; try discriminate; auto.
      intros [_ H]. discriminate.
  - intros e H. unfold final_record. rewrite H. reflexivity.
Qed.

(** X10. A request whose [config_path] is null or the empty string runs the
    job of a request that names the default configuration, whatever the
    other fields say. *)
Theorem missing_config_path_means_default
    (w : World) (app : App) (d1 d2 d3 o1 o2 o3 : option string) :
  run_training w (mkTrainingRequest None d1 o1) app
    = run_training w (mkTrainingRequest (Some default_config_path) d3 o3) app /\
  run_training w (mkTrainingRequest (Some "") d2 o2) app
    = run_training w (mkTrainingRequest (Some default_config_path) d3 o3) app /\
  training_failure w (mkTrainingRequest None d1 o1)
    = match import_train_production w with
      | Some e => Some e
      | None =>
          match train_main w "configs/production-config.yaml" with
          | inl e => Some e
          | inr _ => None
          end
      end.
Proof.
  rewrite !run_training_split, !run_training_rest_outcome.
  repeat split.
Qed.

(** ** Starting and polling *)

(** X11. [POST /train] answers 409 exactly when the status is [training],
    and then changes nothing; in every other status it answers 200, appends
    exactly one job for the request and sets the status to [starting]. *)
Theorem start_training_409_iff_training (request : TrainingRequest) (app : App) :
  (http_status (fst (start_training request app)) = 409%Z <->
     status (training_status app) = "training") /\
  (status (training_status app) = "training" ->
     start_training request app
       = (inl (HTTPException 409 "Training already in progress"), app)) /\
  (status (training_status app) <> "training" ->
     http_status (fst (start_training request app)) = 200%Z /\
     snd (start_training request app)
       = mkApp (model_manager app) (mkStatus "starting" "Training task queued")
               (queued app ++ [request]) (running app)).
Proof.
  destruct (String.eqb (status (training_status app)) "training") eqn:E.
  - apply String.eqb_eq in E. rewrite (start_training_conflict _ _ E).
    split; [split; auto|]. split; [auto|]. intros H. contradiction.
  - rewrite (start_training_accepted _ _ E). apply String.eqb_neq in E. cbn.
    split; [split; [discriminate | intros H; contradiction]|].
    split; [intros H; contradiction | auto].
Qed.

Lemma run_cons w ev rest app :
  run ((w, ev) :: rest) app
    = (fst (step w ev app) :: fst (run rest (snd (step w ev app))),
       snd (run rest (snd (step w ev app)))).
Proof.
  cbn [run]. destruct (step w ev app) as [o app1]. cbn [fst snd].
  destruct (run rest app1). reflexivity.
Qed.

(** X12. Polling the status is invisible and always succeeds: a schedule
    leaves the process in the state it reaches with the polls taken out, and
    every poll is answered with the status record of the moment, with
    [progress] and [logs] null. *)
Theorem polling_is_invisible (sched : list (World * Event)) (app : App) :
  snd (run sched app) = snd (run (filter (fun x => negb (is_poll x)) sched) app) /\
  Forall (fun o =>
            forall r, o = StatusReply r ->
              exists st, r = inr (mkTrainingStatus (status st) (message st) None None))
         (fst (run sched app)).
Proof.
  revert app. induction sched as [|[w ev] rest IH]; intros app.
  - split; [reflexivity | constructor].
  - rewrite run_cons. cbn [fst snd].
    destruct (IH (snd (step w ev app))) as [IH1 IH2].
    destruct ev as [r| |i|i]; cbn [filter is_poll snd negb];
      try (rewrite (run_cons w _ (filter _ rest)); cbn [fst snd]).
    + split; [exact IH1|]. constructor; [|exact IH2].
      intros r0 H. cbn [step] in H.
      destruct (start_training r app). discriminate.
    + split; [exact IH1|]. constructor; [|exact IH2].
      intros r0 H. cbn in H. injection H as <-.
      exists (training_status app). reflexivity.
    + split; [exact IH1|]. constructor; [discriminate | exact IH2].
    + split; [exact IH1|]. constructor; [discriminate | exact IH2].
Qed.

Lemma step_record_ok w ev app :
  record_ok (training_status app) ->
  record_ok (training_status (snd (step w ev app))).
Proof.
  intros H. destruct ev as [r| |i|i]; cbn [step].
  - destruct (String.eqb (status (training_status app)) "training") eqn:E.
    + apply String.eqb_eq in E. rewrite (start_training_conflict _ _ E). exact H.
    + rewrite (start_training_accepted _ _ E). left. cbn. auto.
  - exact H.
  - cbn [snd]. unfold job_begin. destruct (nth_error (queued app) i); [|exact H].
    left. cbn. auto.
  - cbn [snd]. unfold job_end. destruct (nth_error (running app) i) as [r|]; [|exact H].
    rewrite run_training_rest_outcome. cbn [snd training_status].
    unfold final_record. destruct (training_failure w r) as [e|].
    + right. split; [reflexivity|]. eexists. reflexivity.
    + left. cbn. auto.
Qed.

(** X13. Status and message always go together: in every state reachable
    from process start, the record is one of the four fixed pairs for idle,
    starting, training and completed, or has status [error] and a message
    that begins with "Training failed: ". *)
Theorem status_record_pairs (sched : list (World * Event)) :
  record_ok (training_status (snd (run sched App_init))).
Proof.
  assert (G : forall app, record_ok (training_status app) ->
                          record_ok (training_status (snd (run sched app)))).
  { induction sched as [|[w ev] rest IH]; intros app H; [exact H|].
    rewrite run_cons. cbn [snd]. apply IH, step_record_ok, H. }
  apply G. left. cbn. auto.
Qed.

(** ** Listing the models *)

Lemma list_models_body_scan w isdir :
  list_models_body w isdir
    = (for_each model_dirs (scan_dir w isdir) ;;
       for_each base_models
         (fun model => append_item (mkModelEntry model model "huggingface"))).
Proof. reflexivity. Qed.

Lemma scan_items (isdir : string -> bool) (dir : string) (items : list string)
    (acc : list ModelEntry) :
  for_each items
    (fun item : string =>
       let item_path := os_path_join dir item in
       if isdir item_path
       then append_item (mkModelEntry item item_path "local")
       else ret tt) acc
    = (inr tt,
       acc ++ map (fun item => mkModelEntry item (os_path_join dir item) "local")
                  (filter (fun item => isdir (os_path_join dir item)) items)).
Proof.
  revert acc. induction items as [|item items IH]; intros acc; cbn [for_each].
  - cbn. rewrite app_nil_r. reflexivity.
  - unfold bind. cbn [filter]. destruct (isdir (os_path_join dir item)).
    + cbn. rewrite IH, <- app_assoc. reflexivity.
    + cbn. apply IH.
Qed.

Lemma scan_dir_run w isdir dir acc :
  scan_dir w isdir dir acc
    = if path_exists w dir
      then match listdir w dir with
           | inr _ => (inr tt, acc ++ local_entries w isdir dir)
           | inl e => (inl e, acc)
           end
      else (inr tt, acc ++ local_entries w isdir dir).
Proof.
  unfold scan_dir, local_entries. destruct (path_exists w dir).
  - unfold bind, call. destruct (listdir w dir) as [e|items]; [reflexivity|].
    apply scan_items.
  - cbn. rewrite app_nil_r. reflexivity.
Qed.

Lemma scan_dirs_ok w isdir dirs : forall acc,
  (forall d, In d dirs -> path_exists w d = true ->
             exists items, listdir w d = inr items) ->
  for_each dirs (scan_dir w isdir) acc
    = (inr tt, acc ++ flat_map (local_entries w isdir) dirs).
Proof.
  induction dirs as [|d dirs IH]; intros acc H; cbn [for_each flat_map].
  - cbn. rewrite app_nil_r. reflexivity.
  - unfold bind. rewrite scan_dir_run.
    destruct (path_exists w d) eqn:E.
    + destruct (H d (or_introl eq_refl) E) as [items Hl]. rewrite Hl.
      rewrite IH, <- app_assoc; [reflexivity|]. intros; apply H; [right|]; assumption.
    + rewrite IH, <- app_assoc; [reflexivity|]. intros; apply H; [right|]; assumption.
Qed.

Lemma scan_dirs_cases w isdir dirs : forall acc,
  (exists e acc' d,
      for_each dirs (scan_dir w isdir) acc = (inl e, acc') /\
      In d dirs /\ path_exists w d = true /\ listdir w d = inl e) \/
  (for_each dirs (scan_dir w isdir) acc
     = (inr tt, acc ++ flat_map (local_entries w isdir) dirs) /\
   forall d, In d dirs -> path_exists w d = true ->
             exists items, listdir w d = inr items).
Proof.
  induction dirs as [|d dirs IH]; intros acc; cbn [for_each flat_map].
  - right. split; [cbn; rewrite app_nil_r; reflexivity|]. intros d [].
  - unfold bind. rewrite scan_dir_run.
    destruct (path_exists w d) eqn:E; [destruct (listdir w d) as [e|items] eqn:L|].
    + left. exists e, acc, d. cbn. auto.
    + destruct (IH (acc ++ local_entries w isdir d))
        as [[e [acc' [d' [H1 [H2 [H3 H4]]]]]] | [H1 H2]].
      * left. exists e, acc', d'. cbn. auto.
      * right. rewrite H1, <- app_assoc. split; [reflexivity|].
        intros d' [<-|Hin] Hex; [eauto | apply H2; assumption].
    + destruct (IH (acc ++ local_entries w isdir d))
        as [[e [acc' [d' [H1 [H2 [H3 H4]]]]]] | [H1 H2]].
      * left. exists e, acc', d'. cbn. auto.
      * right. rewrite H1, <- app_assoc. split; [reflexivity|].
        intros d' [<-|Hin] Hex; [congruence | apply H2; assumption].
Qed.

Lemma hub_loop (acc : list ModelEntry) :
  for_each base_models
    (fun model : string => append_item (mkModelEntry model model "huggingface")) acc
    = (inr tt, acc ++ hub_entries).
Proof. cbn. rewrite <- !app_assoc. reflexivity. Qed.

(** X14. Whenever [GET /models] returns, its list is the directories found
    under the three model directories that exist, in that order and each
    with type [local] and its joined path, followed by the three fixed
    Hugging Face entries; with none of the directories present it is those
    three entries alone. *)
Theorem list_models_locals_then_hub
    (w : World) (isdir : string -> bool) (models : list ModelEntry) :
  list_models w isdir = inr models ->
  models = flat_map (local_entries w isdir) model_dirs ++ hub_entries /\
  Forall (fun e => entry_type e = "local")
         (flat_map (local_entries w isdir) model_dirs) /\
  ((forall d, In d model_dirs -> path_exists w d = false) ->
   models = hub_entries).
Proof.
  intros H.
  assert (E : models = flat_map (local_entries w isdir) model_dirs ++ hub_entries).
  { revert H. unfold list_models. rewrite list_models_body_scan. unfold bind.
    destruct (scan_dirs_cases w isdir model_dirs [])
      as [[e [acc' [d [H1 _]]]] | [H1 _]]; rewrite H1; [discriminate|].
    rewrite hub_loop. cbn [app]. intros H. injection H as <-. reflexivity. }
  split; [exact E|]. split.
  - rewrite Forall_flat_map. apply Forall_forall. intros d _.
    unfold local_entries. destruct (path_exists w d); [|constructor].
    destruct (listdir w d); [constructor|].
    rewrite Forall_map. apply Forall_forall. reflexivity.
  - intros Hno. rewrite E. cbn. unfold local_entries.
    rewrite !Hno by (cbn; auto). reflexivity.
Qed.

Lemma list_models_locals_then_hub_witness :
  [ mkModelEntry "fine_tuned_model" "models/fine_tuned_model" "local";
    mkModelEntry "microsoft/DialoGPT-medium" "microsoft/DialoGPT-medium" "huggingface";
    mkModelEntry "microsoft/DialoGPT-small" "microsoft/DialoGPT-small" "huggingface";
    mkModelEntry "microsoft/DialoGPT-large" "microsoft/DialoGPT-large" "huggingface" ]
    = flat_map (local_entries models_world models_isdir) model_dirs ++ hub_entries /\
  Forall (fun e => entry_type e = "local")
         (flat_map (local_entries models_world models_isdir) model_dirs) /\
  ((forall d, In d model_dirs -> path_exists models_world d = false) ->
   [ mkModelEntry "fine_tuned_model" "models/fine_tuned_model" "local";
     mkModelEntry "microsoft/DialoGPT-medium" "microsoft/DialoGPT-medium" "huggingface";
     mkModelEntry "microsoft/DialoGPT-small" "microsoft/DialoGPT-small" "huggingface";
     mkModelEntry "microsoft/DialoGPT-large" "microsoft/DialoGPT-large" "huggingface" ]
     = hub_entries).
Proof.
  apply (list_models_locals_then_hub models_world models_isdir).
  reflexivity.
Defined.

(** X15. [GET /models] fails only on a model directory that exists and
    cannot be listed (a plain file of that name, or no permission): the
    exception of [os.listdir] escapes the handler and none of the fixed
    entries is returned.  If every existing model directory can be listed,
    the request succeeds. *)
Theorem list_models_fails_on_unlistable_dir
    (w : World) (isdir : string -> bool) (e : Exn) :
  list_models w isdir = inl e ->
  (exists d, In d model_dirs /\ path_exists w d = true /\ listdir w d = inl e) /\
  ~ (forall d, In d model_dirs -> path_exists w d = true ->
               exists items, listdir w d = inr items).
Proof.
  unfold list_models. rewrite list_models_body_scan. unfold bind.
  destruct (scan_dirs_cases w isdir model_dirs [])
    as [[e' [acc' [d [H1 [H2 [H3 H4]]]]]] | [H1 H2]]; rewrite H1.
  - intros H. injection H as <-. split; [eauto|].
    intros Hall. destruct (Hall d H2 H3) as [items Hl]. congruence.
  - rewrite hub_loop. discriminate.
Qed.

Lemma list_models_fails_on_unlistable_dir_witness :
  (exists d, In d model_dirs /\ path_exists checkpoints_file_world d = true /\
             listdir checkpoints_file_world d
               = inl (PyError "NotADirectoryError" "checkpoints")) /\
  ~ (forall d, In d model_dirs -> path_exists checkpoints_file_world d = true ->
               exists items, listdir checkpoints_file_world d = inr items).
Proof.
  apply (list_models_fails_on_unlistable_dir checkpoints_file_world models_isdir).
  reflexivity.
Defined.

(** X16. Conversely, if every model directory that exists can be listed,
    [GET /models] returns, whatever the directories hold. *)
Theorem list_models_returns_when_listable
    (w : World) (isdir : string -> bool) :
  (forall d, In d model_dirs -> path_exists w d = true ->
             exists items, listdir w d = inr items) ->
  list_models w isdir
    = inr (flat_map (local_entries w isdir) model_dirs ++ hub_entries).
Proof.
  intros H. unfold list_models. rewrite list_models_body_scan. unfold bind.
  rewrite (scan_dirs_ok w isdir model_dirs [] H), hub_loop. reflexivity.
Qed.

Lemma list_models_returns_when_listable_witness :
  list_models models_world models_isdir
    = inr (flat_map (local_entries models_world models_isdir) model_dirs
           ++ hub_entries).
Proof.
  apply (list_models_returns_when_listable models_world models_isdir).
  intros d Hin Hex. exists ["fine_tuned_model"; "README.md"].
  cbn in Hin. destruct Hin as [<-|[<-|[<-|[]]]]; try discriminate Hex.
  reflexivity.
Defined.

(** ** Merging an adapter *)

(** X17. [merge_lora] writes nothing before the base model, its tokenizer,
    the adapter and the merge have all succeeded: if one of them raises, no
    save call has been made.  After them it saves the merged model first and
    then the tokenizer of the base model (not one from the adapter
    directory), both to [output_dir]; if saving the model raises, the
    tokenizer is not saved, and if saving the tokenizer raises, the model is
    already written. *)
Theorem merge_lora_saves_after_all_loads
    (w : World) (mw : MergeWorld) (base lora out : string)
    (calls : list SaveCall) :
  let merged := PeftModel (AutoModelForCausalLM base) lora in
  let r := fst (merge_lora w mw base lora out calls) in
  let calls' := snd (merge_lora w mw base lora out calls) in
  ((forall tok, ~ merge_ready w mw base lora tok) /\
   calls' = calls /\ exists e, r = inl e) \/
  (exists tok,
      merge_ready w mw base lora tok /\
      match save_model_fails mw merged out with
      | Some e => r = inl e /\ calls' = calls ++ [SaveModel merged out]
      | None =>
          calls' = calls ++ [SaveModel merged out; SaveTokenizer tok out] /\
          r = match save_tokenizer_fails mw tok out with
              | Some e => inl e
              | None => inr tt
              end
      end).
Proof.
  unfold merge_lora, merge_ready, record_call. unfold_py. cbn zeta.
  destruct (causal_lm_fails w base) as [e|] eqn:E1.
  { left. split; [intros tok [H _]; discriminate|]. cbn. eauto. }
  destruct (AutoTokenizer_from_pretrained w (Some base)) as [e|tok] eqn:E2.
  { left. split; [intros tok [_ [H _]]; discriminate|]. cbn. eauto. }
  destruct (peft_fails w (AutoModelForCausalLM base) lora) as [e|] eqn:E3.
  { left. split; [intros tok' [_ [_ [H _]]]; discriminate|]. cbn. eauto. }
  destruct (merge_fails mw (PeftModel (AutoModelForCausalLM base) lora))
    as [e|] eqn:E4.
  { left. split; [intros tok' [_ [_ [_ H]]]; discriminate|]. cbn. eauto. }
  right. exists tok. split; [auto|].
  destruct (save_model_fails mw (PeftModel (AutoModelForCausalLM base) lora) out);
    cbn; [auto|].
  rewrite <- app_assoc. cbn.
  destruct (save_tokenizer_fails mw tok out); auto.
Qed.

(** ** The quick-start pipeline *)

Lemma run_command_run sh command description check m :
  quick_start.run_command sh command description check m
    = (inr (quick_start.succeeded sh command m), quick_start.after sh command m).
Proof.
  unfold quick_start.run_command, quick_start.subprocess_run,
    quick_start.succeeded, quick_start.after. unfold_py.
  destruct (quick_start.proc sh command (quick_start.files m))
    as [[e|code [e|out] [e'|err]] fs]; cbn [fst snd]; try reflexivity.
  destruct check; cbn [andb]; destruct (code =? 0)%Z eqn:E;
    cbn; rewrite ?E; reflexivity.
Qed.

Lemma succeeded_iff sh command m :
  quick_start.succeeded sh command m = true <->
  exists out err,
    fst (quick_start.proc sh command (quick_start.files m))
      = quick_start.Exited 0 (inr out) (inr err).
Proof.
  unfold quick_start.succeeded.
  destruct (fst (quick_start.proc sh command (quick_start.files m)))
    as [e|code [e|out] [e'|err]];
    try (split; [discriminate | intros [o [x H]]; discriminate H]).
  destruct (Z.eqb_spec code 0) as [->|Hne]; split; eauto; try discriminate.
  intros [o [x H]]. injection H as Hc _ _. contradiction.
Qed.

Lemma succeeded_false_iff sh command m :
  quick_start.succeeded sh command m = false <->
  (exists e, fst (quick_start.proc sh command (quick_start.files m))
               = quick_start.NotStarted e) \/
  (exists code e err,
      fst (quick_start.proc sh command (quick_start.files m))
        = quick_start.Exited code (inl e) err) \/
  (exists code out e,
      fst (quick_start.proc sh command (quick_start.files m))
        = quick_start.Exited code (inr out) (inl e)) \/
  (exists code out err,
      fst (quick_start.proc sh command (quick_start.files m))
        = quick_start.Exited code (inr out) (inr err) /\ code <> 0%Z).
Proof.
  unfold quick_start.succeeded.
  destruct (fst (quick_start.proc sh command (quick_start.files m)))
    as [e|code [e|out] err'].
  - split; [intros _; left; exists e; reflexivity | reflexivity].
  - split; [intros _; right; left; exists code, e, err'; reflexivity
           | reflexivity].
  - destruct err' as [e'|err].
    { split; [intros _; right; right; left; exists code, out, e'; reflexivity
             | reflexivity]. }
    destruct (Z.eqb_spec code 0) as [->|Hne]; split.
    + discriminate.
    + intros [[x H]|[[c [x [y H]]]|[[c [x [y H]]]|[c [x [y [H Hc]]]]]]];
        try discriminate H.
      injection H as H0 _ _. congruence.
    + intros _. right; right; right. exists code, out, err.
      split; [reflexivity | exact Hne].
    + reflexivity.
Qed.

(** X18. [run_command] never raises, hands the command to
    [subprocess.run] exactly once, and
    returns [True] exactly when [subprocess.run] returns a result with
    return code 0: the process was started, its captured output could be
    decoded as text, and it ended with return code 0.  A process that
    cannot be started, a non-zero return code, and output that is not text
    (even with return code 0) all give [False].  The [check] flag makes no
    difference to the result. *)
Theorem run_command_true_iff_clean_exit
    (sh : quick_start.Shell) (command : quick_start.Command)
    (description : string) (check : bool) (m : quick_start.Machine) :
  exists ok m',
    quick_start.run_command sh command description check m = (inr ok, m') /\
    quick_start.run_command sh command description (negb check) m = (inr ok, m') /\
    quick_start.launched m' = quick_start.launched m ++ [command] /\
    (ok = true <->
       exists out err,
         fst (quick_start.proc sh command (quick_start.files m))
           = quick_start.Exited 0 (inr out) (inr err)) /\
    (ok = false <->
       (exists e, fst (quick_start.proc sh command (quick_start.files m))
                    = quick_start.NotStarted e) \/
       (exists code e err,
           fst (quick_start.proc sh command (quick_start.files m))
             = quick_start.Exited code (inl e) err) \/
       (exists code out e,
           fst (quick_start.proc sh command (quick_start.files m))
             = quick_start.Exited code (inr out) (inl e)) \/
       (exists code out err,
           fst (quick_start.proc sh command (quick_start.files m))
             = quick_start.Exited code (inr out) (inr err) /\ code <> 0%Z)).
Proof.
  exists (quick_start.succeeded sh command m), (quick_start.after sh command m).
  rewrite !run_command_run.
  split; [reflexivity|]. split; [reflexivity|]. split; [reflexivity|].
  split; [apply succeeded_iff | apply succeeded_false_iff].
Qed.

(** A process that returns 0 after writing bytes that are not text counts
    as failed. *)
Example run_command_undecodable_output :
  fst (quick_start.run_command quick_start.binary_output_shell
         (quick_start.Argv ["tool"]) "tool" false quick_start.demo_machine)
    = inr false.
Proof. reflexivity. Qed.

Lemma validate_setup_run (m : quick_start.Machine) :
  quick_start.validate_setup m
    = (inr (forallb (quick_start.files m) quick_start.required_files), m).
Proof.
  unfold quick_start.validate_setup, quick_start.required_files. unfold_py.
  cbn [filter forallb].
  destruct (quick_start.files m "scripts/train_production.py"); cbn; [|reflexivity].
  destruct (quick_start.files m "scripts/benchmark.py"); cbn; [|reflexivity].
  destruct (quick_start.files m "configs/production-config.yaml"); cbn; [|reflexivity].
  destruct (quick_start.files m "data/training_data.jsonl"); cbn; [|reflexivity].
  destruct (quick_start.files m "data/test_data.jsonl"); reflexivity.
Qed.

(** X19. [validate_setup] never raises, changes nothing, and returns [True]
    exactly when all five required files exist; the separate first test of
    [scripts/train_production.py] adds no case. *)
Theorem validate_setup_iff_all_required_files (m : quick_start.Machine) :
  exists ok,
    quick_start.validate_setup m = (inr ok, m) /\
    (ok = true <->
       forall file_path,
         In file_path quick_start.required_files ->
         quick_start.files m file_path = true).
Proof.
  eexists. split; [apply validate_setup_run|].
  rewrite forallb_forall. reflexivity.
Qed.

Lemma run_training_run sh m :
  quick_start.run_training sh m
    = (inr (quick_start.trained sh m), quick_start.after_training sh m).
Proof.
  unfold quick_start.run_training, quick_start.trained, quick_start.after_training.
  unfold bind. rewrite run_command_run.
  destruct (quick_start.succeeded sh (quick_start.production_command sh) m);
    cbn [negb orb]; [reflexivity|].
  apply run_command_run.
Qed.

(** X20. [run_training] launches the production training and then the
    fallback training, with the test configuration and the output directory
    [models/production-model], exactly when [run_command] returned [False]
    for the production training: the process did not start, did not end
    with return code 0, or left output that is not text.  It returns [True]
    exactly when one of the two processes started, ended with return code 0
    and left output that is text, the fallback being run on the files as
    the production training left them. *)
Theorem run_training_falls_back_once (sh : quick_start.Shell) (m : quick_start.Machine) :
  let production := quick_start.production_command sh in
  let fallback := quick_start.fallback_command sh in
  exists ok m',
    quick_start.run_training sh m = (inr ok, m') /\
    fst (quick_start.run_command sh production "Production training" false m)
      = inr (quick_start.succeeded sh production m) /\
    ok = (quick_start.succeeded sh production m
          || quick_start.succeeded sh fallback (quick_start.after sh production m)) /\
    quick_start.launched m'
      = quick_start.launched m
          ++ (if quick_start.succeeded sh production m
              then [production]
              else [production; fallback]) /\
    (quick_start.succeeded sh production m = true <->
       exists out err,
         fst (quick_start.proc sh production (quick_start.files m))
           = quick_start.Exited 0 (inr out) (inr err)) /\
    (ok = true <->
       (exists out err,
           fst (quick_start.proc sh production (quick_start.files m))
             = quick_start.Exited 0 (inr out) (inr err)) \/
       (exists out err,
           fst (quick_start.proc sh fallback
                  (snd (quick_start.proc sh production (quick_start.files m))))
             = quick_start.Exited 0 (inr out) (inr err))).
Proof.
  cbn zeta. eexists _, _. rewrite run_training_run, run_command_run.
  split; [reflexivity|]. split; [reflexivity|]. split; [reflexivity|].
  split; [|split].
  - unfold quick_start.after_training.
    destruct (quick_start.succeeded sh (quick_start.production_command sh) m);
      cbn; [reflexivity|].
    rewrite <- app_assoc. reflexivity.
  - apply succeeded_iff.
  - unfold quick_start.trained. rewrite orb_true_iff, !succeeded_iff.
    reflexivity.
Qed.

(** Production training that returns 0 with output that is not text is
    followed by the fallback training. *)
Example run_training_undecodable_output :
  let sh := quick_start.binary_output_shell in
  fst (quick_start.run_training sh quick_start.demo_machine) = inr false /\
  quick_start.launched (snd (quick_start.run_training sh quick_start.demo_machine))
    = [quick_start.production_command sh; quick_start.fallback_command sh].
Proof. split; reflexivity. Qed.

Lemma lower_ascii_letter (c t : N) :
  (97 <= t <= 122)%N ->
  quick_start.lower_ascii c = t <-> c = t \/ c = (t - 32)%N.
Proof.
  intros Ht. unfold quick_start.lower_ascii.
  destruct (N.leb_spec 65 c), (N.leb_spec c 90); cbn [andb]; lia.
Qed.

Lemma pystr_eqb_eq (a b : pystr) : quick_start.pystr_eqb a b = true <-> a = b.
Proof.
  revert b. induction a as [|x a IH]; intros [|y b]; cbn;
    try (split; [discriminate | intros H; discriminate H]); [tauto|].
  rewrite andb_true_iff, N.eqb_eq, IH. split.
  - intros [-> ->]. reflexivity.
  - intros H. injection H as -> ->. auto.
Qed.

(** The answers taken for a yes are [y] and [yes] in any capitalisation, and
    nothing else: no surrounding space, no other word. *)
Lemma confirms_iff (response : pystr) :
  quick_start.confirms response = true <-> In response quick_start.yes_answers.
Proof.
  unfold quick_start.confirms. cbn [existsb]. rewrite orb_false_r, orb_true_iff.
  rewrite !pystr_eqb_eq. split.
  - intros [H|H].
    + destruct response as [|a [|b r]]; try discriminate H.
      cbn in H. injection H as H. apply lower_ascii_letter in H; [|lia].
      destruct H as [-> | ->]; cbn; auto.
    + destruct response as [|a [|b [|c [|d r]]]]; try discriminate H.
      cbn in H. injection H as Ha Hb Hc.
      apply lower_ascii_letter in Ha; [|lia].
      apply lower_ascii_letter in Hb; [|lia].
      apply lower_ascii_letter in Hc; [|lia].
      destruct Ha as [-> | ->], Hb as [-> | ->], Hc as [-> | ->]; cbn; auto 12.
  - intros H. cbn in H.
    repeat (destruct H as [<-|H]; [cbn; auto|]). destruct H.
Qed.

(** X21. [main] launches no process and changes no file when the setup is
    not valid (exit code 1) or when the user's answer is not [y] or [yes] in
    some capitalisation (exit code 0); an answer with surrounding spaces or
    the empty answer declines. *)
Theorem main_stops_before_launching
    (sh : quick_start.Shell) (m : quick_start.Machine) :
  (forallb (quick_start.files m) quick_start.required_files = false ->
   quick_start.main sh m = (inr 1%Z, m)) /\
  (forallb (quick_start.files m) quick_start.required_files = true ->
   forall response,
     quick_start.user_input sh = inr response ->
     ~ In response quick_start.yes_answers ->
     quick_start.main sh m = (inr 0%Z, m)).
Proof.
  split; intros H.
  - unfold quick_start.main. unfold bind at 1.
    rewrite validate_setup_run, H. reflexivity.
  - intros response Hin Hno.
    unfold quick_start.main. unfold bind at 1.
    rewrite validate_setup_run, H. cbn [negb].
    unfold bind at 1. unfold call. rewrite Hin.
    destruct (quick_start.confirms response) eqn:C; [|reflexivity].
    apply confirms_iff in C. contradiction.
Qed.

Lemma main_stops_before_launching_witness :
  quick_start.main quick_start.declining_shell quick_start.demo_machine
    = (inr 0%Z, quick_start.demo_machine) /\
  quick_start.main quick_start.demo_shell (quick_start.mkMachine (fun _ => false) [])
    = (inr 1%Z, quick_start.mkMachine (fun _ => false) []).
Proof.
  destruct (main_stops_before_launching quick_start.declining_shell
              quick_start.demo_machine) as [_ H].
  destruct (main_stops_before_launching quick_start.demo_shell
              (quick_start.mkMachine (fun _ => false) [])) as [H' _].
  split.
  - apply (H eq_refl (pystr_of_string "n") eq_refl).
    cbv. intros C. repeat (destruct C as [C|C]; [discriminate C|]). exact C.
  - apply H'. reflexivity.
Defined.

Lemma for_each_checks {S A} (f : A -> option Exn) (l : list A) (s : S) :
  for_each l (fun x => import_ (f x)) s
    = (match quick_start.first_error f l with
       | Some e => inl e
       | None => inr tt
       end, s).
Proof.
  induction l as [|x l IH]; [reflexivity|].
  cbn [for_each quick_start.first_error]. unfold bind, import_ at 1.
  destruct (f x); [reflexivity | exact IH].
Qed.

Lemma first_error_none_iff {A} (f : A -> option Exn) (l : list A) :
  quick_start.first_error f l = None <-> forall x, In x l -> f x = None.
Proof.
  induction l as [|x l IH]; cbn; [tauto|].
  destruct (f x) eqn:E.
  - split; [discriminate|]. intros H. rewrite <- E. apply H. auto.
  - rewrite IH. split; [intros H y [<-|Hy]; auto | auto].
Qed.

Lemma first_error_app {A} (f : A -> option Exn) (before : list A) (x : A)
    (rest : list A) (e : Exn) :
  (forall y, In y before -> f y = None) ->
  f x = Some e ->
  quick_start.first_error f (before ++ x :: rest) = Some e.
Proof.
  intros Hb Hx. induction before as [|y before IH]; cbn.
  - rewrite Hx. reflexivity.
  - rewrite (Hb y (or_introl eq_refl)). apply IH.
    intros z Hz. apply Hb. right. exact Hz.
Qed.

Lemma format_fixed_none_iff (v : quick_start.JsonValue) :
  quick_start.format_fixed v = None <-> quick_start.formattable v = true.
Proof.
  destruct v as [n|t|s|b| | |];
    unfold quick_start.format_fixed, quick_start.formattable;
    try (split; reflexivity); try (split; discriminate).
  destruct (Z.leb_spec quick_start.float_limit (Z.abs n)) as [H|H];
    destruct (Z.ltb_spec (Z.abs n) quick_start.float_limit) as [K|K];
    try lia; split; try discriminate; reflexivity.
Qed.

Lemma show_results_run sh m dir results :
  dir <> "" ->
  quick_start.files m dir = true ->
  quick_start.files m (dir ++ "/detailed_results.json")%string = true ->
  quick_start.read_results sh dir = inr results ->
  quick_start.show_results sh (Some dir) m
    = (match quick_start.first_error
               (fun key => quick_start.format_fixed
                             (quick_start.get_metric results key))
               quick_start.metrics with
       | Some e => inl e
       | None => inr tt
       end, m).
Proof.
  intros Hne Hd Hf Hr.
  unfold quick_start.show_results. unfold bind at 1. cbn [get].
  apply String.eqb_neq in Hne. rewrite Hne, Hd, Hf. cbn [orb negb].
  unfold bind, call. rewrite Hr. apply for_each_checks.
Qed.

(** X22. [show_results] on a results directory whose results file can be
    read returns exactly when each of the six metrics is in the file as a
    value that a float format accepts: a float, a boolean, or an integer
    that converts to a float.  A metric that is missing makes it raise
    [ValueError] (the metrics that are present being acceptable), because
    the default ['N/A'] of [results.get] is a string and the format asks
    for a float; an integer of 2^1024 - 2^970 or more in absolute value for
    the first metric makes it raise [OverflowError].  In general the
    exception that escapes is that of the first metric, in the order of the
    prints, whose value the format does not accept.  The machine is left
    as it was. *)
Theorem show_results_needs_every_metric
    (sh : quick_start.Shell) (m : quick_start.Machine) (dir : string)
    (results : list (string * quick_start.JsonValue)) :
  dir <> "" ->
  quick_start.files m dir = true ->
  quick_start.files m (dir ++ "/detailed_results.json")%string = true ->
  quick_start.read_results sh dir = inr results ->
  (fst (quick_start.show_results sh (Some dir) m) = inr tt <->
     forall key, In key quick_start.metrics ->
       exists v, quick_start.dict_get key results = Some v /\
                 quick_start.formattable v = true) /\
  (forall key,
      In key quick_start.metrics ->
      quick_start.dict_get key results = None ->
      (forall k v, In k quick_start.metrics ->
                   quick_start.dict_get k results = Some v ->
                   quick_start.formattable v = true) ->
      fst (quick_start.show_results sh (Some dir) m)
        = inl (PyError "ValueError"
                 "Unknown format code 'f' for object of type 'str'")) /\
  (forall n,
      quick_start.dict_get "perplexity" results = Some (quick_start.JInt n) ->
      (2 ^ 1024 - 2 ^ 970 <= Z.abs n)%Z ->
      fst (quick_start.show_results sh (Some dir) m)
        = inl (PyError "OverflowError" "int too large to convert to float")) /\
  (forall before key rest e,
      quick_start.metrics = before ++ key :: rest ->
      (forall k, In k before ->
         exists v, quick_start.dict_get k results = Some v /\
                   quick_start.formattable v = true) ->
      quick_start.format_fixed (quick_start.get_metric results key) = Some e ->
      fst (quick_start.show_results sh (Some dir) m) = inl e) /\
  snd (quick_start.show_results sh (Some dir) m) = m.
Proof.
  intros Hne Hd Hf Hr.
  rewrite (show_results_run sh m dir results Hne Hd Hf Hr). cbn [fst snd].
  split; [|split; [|split; [|split; [|reflexivity]]]].
  - split.
    + intros H key Hin.
      destruct (quick_start.first_error _ quick_start.metrics) eqn:F; [discriminate|].
      pose proof (proj1 (first_error_none_iff _ _) F key Hin) as G.
      unfold quick_start.get_metric in G.
      destruct (quick_start.dict_get key results) as [v|]; [|discriminate].
      exists v. split; [reflexivity|]. apply format_fixed_none_iff, G.
    + intros H.
      assert (F : quick_start.first_error
                    (fun key => quick_start.format_fixed
                                  (quick_start.get_metric results key))
                    quick_start.metrics = None).
      { apply first_error_none_iff. intros key Hin.
        destruct (H key Hin) as [v [Hv Hfmt]].
        unfold quick_start.get_metric. rewrite Hv.
        apply format_fixed_none_iff, Hfmt. }
      rewrite F. reflexivity.
  - intros key Hin Hmiss Hnum.
    assert (F : forall l, incl l quick_start.metrics -> In key l ->
               quick_start.first_error
                 (fun k => quick_start.format_fixed (quick_start.get_metric results k)) l
                 = Some (PyError "ValueError"
                           "Unknown format code 'f' for object of type 'str'")).
    { induction l as [|k l IH]; intros Hincl Hl; [destruct Hl|].
      cbn [quick_start.first_error]. unfold quick_start.get_metric at 1.
      destruct (quick_start.dict_get k results) as [v|] eqn:Hk; [|reflexivity].
      assert (Hv : quick_start.format_fixed v = None).
      { apply format_fixed_none_iff, (Hnum k v); [apply Hincl; left; reflexivity | exact Hk]. }
      rewrite Hv. destruct Hl as [->|Hl]; [congruence|].
      apply IH; [intros x Hx; apply Hincl; right; exact Hx | exact Hl]. }
    rewrite (F _ (incl_refl _) Hin). reflexivity.
  - intros n Hn Hbig. unfold quick_start.metrics.
    cbn [quick_start.first_error]. unfold quick_start.get_metric at 1.
    rewrite Hn. cbn [quick_start.format_fixed].
    destruct (Z.leb_spec quick_start.float_limit (Z.abs n)) as [_|H];
      [reflexivity|].
    unfold quick_start.float_limit in H. lia.
  - intros before key rest e Hsplit Hbefore He.
    rewrite Hsplit, (first_error_app _ before key rest e); [reflexivity| |exact He].
    intros k Hk. destruct (Hbefore k Hk) as [v [Hv Hfmt]].
    unfold quick_start.get_metric. rewrite Hv.
    apply format_fixed_none_iff, Hfmt.
Qed.

Lemma show_results_needs_every_metric_witness :
  (fst (quick_start.show_results quick_start.demo_shell
          (Some "results/benchmark_20240101_120000")
          (quick_start.mkMachine (fun _ => true) [])) = inr tt <->
     forall key, In key quick_start.metrics ->
       exists v,
         quick_start.dict_get key
           [ ("perplexity", quick_start.JFloat "12.5");
             ("bleu_4", quick_start.JFloat "0.31") ] = Some v /\
         quick_start.formattable v = true) /\
  fst (quick_start.show_results quick_start.demo_shell
         (Some "results/benchmark_20240101_120000")
         (quick_start.mkMachine (fun _ => true) []))
    = inl (PyError "ValueError" "Unknown format code 'f' for object of type 'str'").
Proof.
  destruct (show_results_needs_every_metric quick_start.demo_shell
              (quick_start.mkMachine (fun _ => true) [])
              "results/benchmark_20240101_120000"
              [ ("perplexity", quick_start.JFloat "12.5");
                ("bleu_4", quick_start.JFloat "0.31") ]
              ltac:(discriminate) eq_refl eq_refl eq_refl) as [H1 [H2 _]].
  split; [exact H1|].
  apply (H2 "rouge_l").
  - cbn. auto.
  - reflexivity.
  - intros k v _ H. cbn [quick_start.dict_get] in H.
    destruct (String.eqb "perplexity" k); [injection H as <-; reflexivity|].
    destruct (String.eqb "bleu_4" k); [injection H as <-; reflexivity|].
    discriminate H.
Defined.

Lemma run_benchmark_run sh model_path m :
  quick_start.run_benchmark sh model_path m
    = (inr (if quick_start.succeeded sh
                 (quick_start.benchmark_command sh model_path
                    (quick_start.results_dir_of sh)) m
            then Some (quick_start.results_dir_of sh)
            else None),
       quick_start.after sh
         (quick_start.benchmark_command sh model_path (quick_start.results_dir_of sh)) m).
Proof.
  unfold quick_start.run_benchmark, quick_start.results_dir_of. unfold bind.
  rewrite run_command_run.
  destruct (quick_start.succeeded sh _ m); reflexivity.
Qed.

Lemma show_results_keeps_machine sh results_dir m :
  snd (quick_start.show_results sh results_dir m) = m.
Proof.
  unfold quick_start.show_results. unfold bind at 1. cbn [get].
  destruct results_dir as [dir|]; [|reflexivity].
  destruct (String.eqb dir "" || negb (quick_start.files m dir)); [reflexivity|].
  destruct (quick_start.files m (dir ++ "/detailed_results.json")); [|reflexivity].
  unfold bind, call. destruct (quick_start.read_results sh dir); [reflexivity|].
  rewrite for_each_checks. reflexivity.
Qed.

(** X23. The order of the pipeline in [main].  A process is launched only
    when the setup is valid and the user has confirmed.  The training
    commands come first, and the benchmark is launched only after one of
    them succeeded and [models/production-model] exists; it is the last
    process launched.  When the benchmark succeeds, [main] ends as
    [show_results] does: exit code 0 if it returns, and if it raises, its
    exception escapes [main] in place of an exit code.  In every other case
    after a confirmation the exit code is 1. *)
Theorem main_pipeline_order
    (sh : quick_start.Shell) (m m' : quick_start.Machine) (r : Exn + Z) :
  quick_start.main sh m = (r, m') ->
  let production := quick_start.production_command sh in
  let fallback := quick_start.fallback_command sh in
  let training :=
    if quick_start.succeeded sh production m
    then [production] else [production; fallback] in
  let trained_m := quick_start.after_training sh m in
  let benchmark :=
    quick_start.benchmark_command sh "models/production-model"
      (quick_start.results_dir_of sh) in
  (m' = m /\
   (r = inr 1%Z /\ forallb (quick_start.files m) quick_start.required_files = false \/
    r = inr 0%Z /\ (exists response, quick_start.user_input sh = inr response /\
                                     ~ In response quick_start.yes_answers) \/
    exists e, r = inl e /\ quick_start.user_input sh = inl e)) \/
  (forallb (quick_start.files m) quick_start.required_files = true /\
   (exists response, quick_start.user_input sh = inr response /\
                     In response quick_start.yes_answers) /\
   ((m' = trained_m /\
     quick_start.launched m' = quick_start.launched m ++ training /\
     r = inr 1%Z /\
     (quick_start.trained sh m = false \/
      quick_start.files trained_m "models/production-model" = false)) \/
    (m' = quick_start.after sh benchmark trained_m /\
     quick_start.launched m'
       = quick_start.launched m ++ training ++ [benchmark] /\
     quick_start.trained sh m = true /\
     quick_start.files trained_m "models/production-model" = true /\
     (quick_start.succeeded sh benchmark trained_m = false /\ r = inr 1%Z \/
      quick_start.succeeded sh benchmark trained_m = true /\
      r = match fst (quick_start.show_results sh
                       (Some (quick_start.results_dir_of sh)) m') with
          | inl e => inl e
          | inr _ => inr 0%Z
          end)))).
Proof.
  cbn zeta. unfold quick_start.main. unfold bind at 1.
  rewrite validate_setup_run.
  destruct (forallb (quick_start.files m) quick_start.required_files) eqn:V;
    cbn [negb].
  2:{ intros H. injection H as <- <-. left. auto. }
  unfold bind at 1. unfold call.
  destruct (quick_start.user_input sh) as [e|response] eqn:U.
  { intros H. injection H as <- <-. left. split; [reflexivity|]. right; right. eauto. }
  destruct (quick_start.confirms response) eqn:C; cbn [negb].
  2:{ intros H. injection H as <- <-. left. split; [reflexivity|]. right; left.
      split; [reflexivity|]. exists response. split; [reflexivity|].
      intros Hin. apply confirms_iff in Hin. congruence. }
  apply confirms_iff in C.
  assert (L : quick_start.launched (quick_start.after_training sh m)
              = quick_start.launched m
                  ++ (if quick_start.succeeded sh (quick_start.production_command sh) m
                      then [quick_start.production_command sh]
                      else [quick_start.production_command sh;
                            quick_start.fallback_command sh])).
  { unfold quick_start.after_training.
    destruct (quick_start.succeeded sh (quick_start.production_command sh) m);
      cbn; [reflexivity|]. rewrite <- app_assoc. reflexivity. }
  unfold bind at 1. rewrite run_training_run.
  destruct (quick_start.trained sh m) eqn:T; cbn [negb].
  2:{ intros H. injection H as <- <-. right.
      split; [reflexivity|]. split; [eauto|]. left. auto. }
  unfold bind at 1. cbn [get].
  destruct (quick_start.files (quick_start.after_training sh m)
              "models/production-model") eqn:M; cbn [negb].
  2:{ intros H. injection H as <- <-. right.
      split; [reflexivity|]. split; [eauto|]. left. auto. }
  unfold bind at 1. rewrite run_benchmark_run.
  assert (LB : quick_start.launched
                 (quick_start.after sh
                    (quick_start.benchmark_command sh "models/production-model"
                       (quick_start.results_dir_of sh))
                    (quick_start.after_training sh m))
               = quick_start.launched m
                   ++ (if quick_start.succeeded sh (quick_start.production_command sh) m
                       then [quick_start.production_command sh]
                       else [quick_start.production_command sh;
                             quick_start.fallback_command sh])
                   ++ [quick_start.benchmark_command sh "models/production-model"
                         (quick_start.results_dir_of sh)]).
  { cbn [quick_start.after quick_start.launched]. rewrite L, <- app_assoc.
    reflexivity. }
  destruct (quick_start.succeeded sh _ (quick_start.after_training sh m)) eqn:B.
  2:{ intros H. injection H as <- <-. right.
      split; [reflexivity|]. split; [eauto|]. right.
      split; [reflexivity|]. split; [exact LB|]. auto. }
  assert (Hne : String.eqb (quick_start.results_dir_of sh) "" = false) by reflexivity.
  rewrite Hne. unfold bind.
  pose proof (show_results_keeps_machine sh (Some (quick_start.results_dir_of sh))
                (quick_start.after sh
                   (quick_start.benchmark_command sh "models/production-model"
                      (quick_start.results_dir_of sh))
                   (quick_start.after_training sh m))) as K.
  destruct (quick_start.show_results sh (Some (quick_start.results_dir_of sh))
              (quick_start.after sh
                 (quick_start.benchmark_command sh "models/production-model"
                    (quick_start.results_dir_of sh))
                 (quick_start.after_training sh m)))
    as [[e|[]] m2] eqn:S; cbn [snd] in K; subst m2;
    intros H; injection H as <- <-; right;
    (split; [reflexivity|]); (split; [eauto|]); right;
    (split; [reflexivity|]); (split; [exact LB|]);
    (split; [reflexivity|]); (split; [reflexivity|]);
    right; (split; [reflexivity|]); rewrite S; reflexivity.
Qed.

(** The pipeline on [demo_shell]: the production training fails, the
    fallback succeeds, the benchmark succeeds, and [main] ends with the
    [ValueError] of [show_results], whose results file lacks a metric. *)
Lemma main_pipeline_order_witness :
  let sh := quick_start.demo_shell in
  let m := quick_start.demo_machine in
  let production := quick_start.production_command sh in
  let fallback := quick_start.fallback_command sh in
  let benchmark :=
    quick_start.benchmark_command sh "models/production-model"
      (quick_start.results_dir_of sh) in
  let m' := quick_start.after sh benchmark (quick_start.after_training sh m) in
  quick_start.main sh m
    = (inl (PyError "ValueError" "Unknown format code 'f' for object of type 'str'"),
       m') /\
  quick_start.launched m' = [production; fallback; benchmark] /\
  quick_start.succeeded sh benchmark (quick_start.after_training sh m) = true.
Proof.
  cbn zeta.
  assert (E : quick_start.main quick_start.demo_shell quick_start.demo_machine
              = (inl (PyError "ValueError"
                        "Unknown format code 'f' for object of type 'str'"),
                 quick_start.after quick_start.demo_shell
                   (quick_start.benchmark_command quick_start.demo_shell
                      "models/production-model"
                      (quick_start.results_dir_of quick_start.demo_shell))
                   (quick_start.after_training quick_start.demo_shell
                      quick_start.demo_machine))) by reflexivity.
  split; [exact E|].
  destruct (main_pipeline_order quick_start.demo_shell quick_start.demo_machine
              _ _ E) as [[H _] | [_ [_ [[_ [_ [H _]]] | [_ [L [_ [_ [[H _] | [H _]]]]]]]]]].
  - exfalso. apply (f_equal quick_start.launched) in H. discriminate H.
  - discriminate H.
  - discriminate H.
  - split; [exact L | exact H].
Defined.

(** ** The web interface *)

Lemma set_last_after_append message shown h s :
  gradio_app.set_last shown (gradio_app.mkUi (h ++ [(message, None)]) s)
    = (inr tt, gradio_app.mkUi (h ++ [(message, Some shown)]) s).
Proof.
  unfold gradio_app.set_last. cbn [gradio_app.history gradio_app.sent].
  rewrite rev_app_distr. cbn. rewrite rev_involutive. reflexivity.
Qed.

Ltac shown_unsent :=
  rewrite set_last_after_append; eexists _, []; rewrite app_nil_r;
  split; [reflexivity | left; reflexivity].

Ltac shown_sent :=
  rewrite set_last_after_append; eexists _, [_];
  split; [reflexivity | right; eexists _, _, _; reflexivity].

(** X24. [chat_with_model] never raises and always clears the text box.  A
    message that is empty or all white space sends nothing and leaves the
    history as it is.  Any other message adds exactly one pair to the
    history, the message with what is shown for it, and sends at most one
    request, a POST to the [/chat] URL that carries the message. *)
Theorem chat_with_model_adds_one_pair
    (net : gradio_app.Net) (message : pystr)
    (max_length temperature top_p : gradio_app.Json) (ui : gradio_app.Ui) :
  (forallb py_isspace message = true ->
   gradio_app.chat_with_model net message max_length temperature top_p ui
     = (inr [], ui)) /\
  (forallb py_isspace message = false ->
   exists shown requests,
     gradio_app.chat_with_model net message max_length temperature top_p ui
       = (inr [],
          gradio_app.mkUi (gradio_app.history ui ++ [(message, Some shown)])
                          (gradio_app.sent ui ++ requests)) /\
     (requests = [] \/
      exists ml t p,
        requests = [ gradio_app.mkRequest "POST" "http://localhost:8000/chat" []
                       [ ("message", gradio_app.JStr message); ("max_length", ml);
                         ("temperature", t); ("top_p", p) ] ])).
Proof.
  unfold gradio_app.chat_with_model, gradio_app.is_blank. split; intros Hb.
  - apply strip_empty_iff in Hb. rewrite Hb. reflexivity.
  - destruct (strip message) as [|c s] eqn:Hs.
    { apply strip_empty_iff in Hs. congruence. }
    destruct ui as [h s0].
    unfold gradio_app.history_append, gradio_app.requests_post,
      gradio_app.subscript.
    unfold_py. cbn [gradio_app.history gradio_app.sent].
    destruct (gradio_app.int_of net max_length) as [e|ml];
      [destruct (gradio_app.is_request_exception net e); shown_unsent|].
    destruct (gradio_app.float_of net temperature) as [e|t];
      [destruct (gradio_app.is_request_exception net e); shown_unsent|].
    destruct (gradio_app.float_of net top_p) as [e|p];
      [destruct (gradio_app.is_request_exception net e); shown_unsent|].
    destruct (gradio_app.send net _) as [e|response];
      [destruct (gradio_app.is_request_exception net e); shown_sent|].
    destruct (gradio_app.status_code response =? 200)%Z; [|shown_sent].
    destruct (gradio_app.json response) as [e|[fields|]];
      [ destruct (gradio_app.is_request_exception net e); shown_sent
      | | destruct (gradio_app.is_request_exception net _); shown_sent ].
    destruct (gradio_app.fields_get "response" fields) as [bot|];
      [|destruct (gradio_app.is_request_exception net _); shown_sent].
    destruct (gradio_app.fields_get "processing_time" fields) as [pt|];
      [|destruct (gradio_app.is_request_exception net _); shown_sent].
    destruct (gradio_app.format_2f pt) as [e|];
      [destruct (gradio_app.is_request_exception net e); shown_sent | shown_sent].
Qed.

Lemma chat_with_model_adds_one_pair_witness :
  gradio_app.chat_with_model gradio_app.net_503 (pystr_of_string "  ")
      (gradio_app.JNum "100") (gradio_app.JNum "0.7") (gradio_app.JNum "0.9")
      (gradio_app.mkUi [] [])
    = (inr [], gradio_app.mkUi [] []) /\
  exists shown requests,
    gradio_app.chat_with_model gradio_app.net_503 (pystr_of_string "hello")
        (gradio_app.JNum "100") (gradio_app.JNum "0.7") (gradio_app.JNum "0.9")
        (gradio_app.mkUi [] [])
      = (inr [],
         gradio_app.mkUi ([] ++ [(pystr_of_string "hello", Some shown)])
                         ([] ++ requests)) /\
    (requests = [] \/
     exists ml t p,
       requests = [ gradio_app.mkRequest "POST" "http://localhost:8000/chat" []
                      [ ("message", gradio_app.JStr (pystr_of_string "hello"));
                        ("max_length", ml); ("temperature", t); ("top_p", p) ] ]).
Proof.
  split.
  - apply (chat_with_model_adds_one_pair gradio_app.net_503 (pystr_of_string "  ")).
    reflexivity.
  - apply (chat_with_model_adds_one_pair gradio_app.net_503 (pystr_of_string "hello")
             (gradio_app.JNum "100") (gradio_app.JNum "0.7") (gradio_app.JNum "0.9")
             (gradio_app.mkUi [] [])).
    reflexivity.
Defined.

(** X25. The path typed into the load box of the web interface never
    reaches [ModelManager.load_model].  The interface sends it in the JSON
    body of a POST to [/load_model] with an empty query string (and sends an
    empty body for a blank path); the handler takes [model_path] from the
    query string, so it is called with [None] and loads the default
    candidate, whatever was typed.  The interface itself never raises. *)
Theorem ui_load_model_path_is_not_received
    (net : gradio_app.Net) (w : World) (model_path : pystr)
    (ui : gradio_app.Ui) (app : App) :
  let request :=
    gradio_app.mkRequest "POST" "http://localhost:8000/load_model" []
      (gradio_app.load_model_data model_path) in
  (exists shown,
      gradio_app.load_model net model_path ui
        = (inr shown,
           gradio_app.mkUi (gradio_app.history ui) (gradio_app.sent ui ++ [request]))) /\
  load_model_route w request app = load_model_endpoint w None app /\
  snd (load_model_route w request app)
    = with_manager app (snd (load_model w None (ensure_manager w app))).
Proof.
  cbn zeta. split; [|split].
  - unfold gradio_app.load_model, gradio_app.requests_post, gradio_app.subscript.
    unfold_py.
    destruct (gradio_app.send net _) as [e|response]; [eauto|].
    destruct (gradio_app.status_code response =? 200)%Z; [|eauto].
    destruct (gradio_app.json response) as [e|[fields|]]; [eauto| |eauto].
    destruct (gradio_app.fields_get "message" fields); eauto.
  - reflexivity.
  - unfold load_model_route. cbn [gradio_app.req_query find].
    rewrite load_model_endpoint_run.
    destruct (load_model w None (ensure_manager w app)) as [[e|[]] self']; reflexivity.
Qed.
